(** * LanguageMapSDK (src/app.py): the country directory, its name
      query and the map marker, embedded in Rocq.

    The Python class [LanguageMapSDK] owns a pandas DataFrame built once
    from [pycountry.countries]; [get_country_info] filters it with
    [Series.str.contains(country_name, case=False)] and
    [create_country_map] turns the first hit into a folium map with one
    marker.  The embedding keeps that shape:

    - a DataFrame built from a list of dicts is the list of its rows,
      with one dtype for each numeric column: an [int] stored next to
      floats becomes the nearest double ([pd_DataFrame]); numbers are
      compared with Python's [==];
    - a Python object with optional attributes ([hasattr]/[getattr]) is a
      record of [option] fields;
    - a raised exception is the [Raise] branch of [result];
    - [self] is threaded explicitly through the two methods;
    - a folium object is the record of what its constructor keeps: the
      location is validated (two numbers, none a NaN) and kept as
      floats, so that building a map or a marker can raise;
    - the regular-expression engine is a parameter of the lookup where a
      statement holds for any engine ([get_country_info_with]); the
      engine embedded in [Re] covers a fragment of [re] over ASCII
      strings, where a character is a byte and case folding is ASCII
      case folding: statements that read a match as a literal substring
      are made for ASCII names and queries. *)

From Stdlib Require Import ZArith Ascii String List Bool Lia.
From Stdlib Require Import Floats.SpecFloat.
From stdpp Require Import base option list strings gmap relations.

Local Open Scope string_scope.
Local Open Scope list_scope.

(** ** Python values used by the program *)

Module Py.

(** Exceptions the modelled code can raise.  [re_error] stands for the
    regular-expression engine rejecting a pattern: [re.error] with
    Python's [re], [pyarrow.lib.ArrowInvalid] when pandas keeps strings
    in pyarrow.  [NotModelled] is not a Python exception: it marks a
    regular-expression construct that lies outside the fragment of [re]
    embedded below, where the embedding makes no statement about what
    the program does. *)
Inductive exn : Type :=
| AttributeError (attr : string)
| IndexError
| KeyError (key : string)
| ValueError
| OverflowError
| re_error
| NotModelled (construct : string).

Inductive result (A : Type) : Type :=
| Ok (a : A)
| Raise (e : exn).
Arguments Ok {A} a.
Arguments Raise {A} e.

(** Sequencing: the first exception raised ends the computation. *)
#[global] Instance result_ret : MRet result := fun A a => Ok a.
#[global] Instance result_bind : MBind result := fun A B k m =>
  match m with
  | Ok a => k a
  | Raise e => Raise e
  end.

(** A Python [int] or [float]; floats are IEEE-754 values. *)
Inductive num : Type :=
| PyInt (n : Z)
| PyFloat (f : spec_float).

(** [float_is_int f n]: the float [f] denotes exactly the integer [n]. *)
Definition float_is_int (f : spec_float) (n : Z) : bool :=
  match f with
  | S754_zero _ => (n =? 0)%Z
  | S754_finite s m e =>
      let v := if s then Z.neg m else Z.pos m in
      if (0 <=? e)%Z then (n =? v * 2 ^ e)%Z
      else (n * 2 ^ (- e) =? v)%Z
  | _ => false
  end.

(** Python's [==] on numbers: exact across [int] and [float]. *)
Definition eq (a b : num) : bool :=
  match a, b with
  | PyInt m, PyInt n => (m =? n)%Z
  | PyFloat f, PyFloat g => SFeqb f g
  | PyInt n, PyFloat f | PyFloat f, PyInt n => float_is_int f n
  end.

(** The float literal [0.0]. *)
Definition float_zero : num := PyFloat (S754_zero false).

(** The double nearest to an integer (ties to even); an infinity when
    the integer is beyond the range of doubles. *)
Definition float_of_int (n : Z) : spec_float :=
  binary_normalize 53 1024 n 0 false.

(** [float(v)]: an [int] too large for a double raises. *)
Definition float (v : num) : result spec_float :=
  match v with
  | PyFloat f => Ok f
  | PyInt n =>
      match float_of_int n with
      | S754_infinity _ => Raise OverflowError
      | f => Ok f
      end
  end.

(** [math.isnan] *)
Definition isnan (f : spec_float) : bool :=
  match f with
  | S754_nan => true
  | _ => false
  end.

End Py.
Import Py.

(** ** The reference dataset ([pycountry]) *)

(** One entry of [pycountry.countries].  Only [name] is always there;
    every other attribute is read through [hasattr]/[getattr] and may be
    missing ([None]). *)
Record Country : Type := mkCountry {
  c_name : string;
  c_official_name : option string;
  c_latitude : option num;
  c_longitude : option num;
  c_languages : option (list string);
}.

(** One row of the DataFrame: the dict appended by [_load_country_data]. *)
Record CountryRecord : Type := mkRecord {
  name : string;
  official_name : string;
  latitude : num;
  longitude : num;
  language : string;
}.

(** The DataFrame [country_data]: its rows, in order, with the values
    the frame stores. *)
#[warning="-notation-for-abbreviation"] Notation DataFrame := (list CountryRecord).

(** ** [pd.DataFrame(countries)]: one dtype per numeric column *)

Module Pd.

Inductive dtype : Type := int64 | uint64 | float64 | object.

Definition is_float (v : num) : bool :=
  match v with
  | PyFloat _ => true
  | PyInt _ => false
  end.

(** Some [int] of the column satisfies [p]. *)
Definition some_int (p : Z -> bool) (col : list num) : bool :=
  existsb (fun v => match v with
                    | PyInt n => p n
                    | PyFloat _ => false
                    end) col.

(** The dtype inferred for a column of numbers: [object] when its
    integers do not fit one machine integer type; otherwise [float64] as
    soon as one value is a float. *)
Definition infer (col : list num) : dtype :=
  let beyond := some_int (fun n => (n <? - 2 ^ 63) || (2 ^ 64 <=? n))%Z col in
  let unsigned := some_int (fun n => 2 ^ 63 <=? n)%Z col in
  let negative := some_int (fun n => n <? 0)%Z col in
  if beyond || (unsigned && negative) then object
  else if existsb is_float col then float64
  else if unsigned then uint64
  else int64.

(** The value a column of dtype [d] stores for [v]. *)
Definition astype (d : dtype) (v : num) : num :=
  match d, v with
  | float64, PyInt n => PyFloat (float_of_int n)
  | _, _ => v
  end.

End Pd.

(** The frame made of a list of dicts (line 67). *)
Definition pd_DataFrame (countries : list CountryRecord) : DataFrame :=
  let lat := Pd.infer (map latitude countries) in
  let lon := Pd.infer (map longitude countries) in
  map (fun row => mkRecord (name row) (official_name row)
                           (Pd.astype lat (latitude row))
                           (Pd.astype lon (longitude row))
                           (language row)) countries.

Section Load.

(** [pycountry.languages], keyed by [alpha_2], giving each language's
    [name]. *)
Variable languages : gmap string string.

(** [getattr(obj, attr, default)] *)
Definition getattr {A} (field : option A) (dflt : A) : A :=
  match field with
  | Some v => v
  | None => dflt
  end.

(** [xs[0]] *)
Definition index0 {A} (xs : list A) : result A :=
  match xs with
  | x :: _ => Ok x
  | [] => Raise IndexError
  end.

(** [pycountry.languages.get(alpha_2=code).name]: [get] answers [None]
    for an unknown code, and [None.name] raises.  (Which exception it is
    does not matter to the caller, whose [except] is bare.) *)
Definition languages_get_name (code : string) : result string :=
  match languages !! code with
  | Some nm => Ok nm
  | None => Raise (AttributeError "name")
  end.

(** The body of the [try] block for one entry (lines 57-64). *)
Definition load_entry (country : Country) : result CountryRecord :=
  lang ← match c_languages country with
         | Some ls => code ← index0 ls; languages_get_name code
         | None => Ok "Unknown"
         end;
  Ok {| name := c_name country;
        official_name := getattr (c_official_name country) (c_name country);
        latitude := getattr (c_latitude country) (PyInt 0);
        longitude := getattr (c_longitude country) (PyInt 0);
        language := lang |}.

(** The [for] loop: [countries] is the list being appended to; the bare
    [except: continue] skips the entry whose body raised. *)
Fixpoint load_loop (dataset : list Country) (countries : DataFrame)
  : DataFrame :=
  match dataset with
  | [] => countries
  | country :: rest =>
      match load_entry country with
      | Ok row => load_loop rest (countries ++ [row])
      | Raise _ => load_loop rest countries
      end
  end.

(** The list [countries] at the end of the loop (lines 54-66); the
    method hands it to [pd.DataFrame], see [__init__]. *)
Definition _load_country_data (dataset : list Country) : DataFrame :=
  load_loop dataset [].

(** The same loop as a transition system on
    (entries still to visit, rows appended so far). *)
Inductive load_step : list Country * DataFrame ->
                      list Country * DataFrame -> Prop :=
| load_append country rest countries row :
    load_entry country = Ok row ->
    load_step (country :: rest, countries) (rest, countries ++ [row])
| load_skip country rest countries e :
    load_entry country = Raise e ->
    load_step (country :: rest, countries) (rest, countries).

(** A finished run of the loop from an empty [countries] list, and the
    frame made of the list it ends with. *)
Definition builds (dataset : list Country) (df : DataFrame) : Prop :=
  exists countries,
    rtc load_step (dataset, []) ([], countries)
    /\ df = pd_DataFrame countries.

End Load.

(** ** Regular expressions: the fragment of Python's [re] that
       [Series.str.contains] is given

    [str.contains(pat, case=False)] keeps pandas' default [regex=True]:
    the query is compiled with [re.compile(pat, re.IGNORECASE)] and each
    name is tested with [search].  The fragment embedded here has literal
    characters, [.], escaped punctuation, groups, [|], and the quantifiers
    [*], [+], [?], greedy or lazy (a lazy quantifier changes which match
    is reported, not whether there is one).  Anything else (an anchor, a
    character set, a counted repeat, a group extension, an escaped letter
    or digit, a possessive quantifier) is answered with [NotModelled]. *)

Module Re.

Inductive regex : Type :=
| Void
| Eps
| Lit (c : ascii)
| Dot
| Cat (r1 r2 : regex)
| Alt (r1 r2 : regex)
| Star (r : regex).

(** ASCII case folding, as [re.IGNORECASE] does on ASCII text.  (On
    other text Python folds by Unicode case; the statements that depend
    on folding are made for ASCII strings.) *)
Definition lower (c : ascii) : ascii :=
  let n := nat_of_ascii c in
  if (65 <=? n)%nat && (n <=? 90)%nat then ascii_of_nat (n + 32) else c.

(** A literal of the pattern against a character of the subject. *)
Definition lit_matches (c ch : ascii) : bool :=
  Ascii.eqb (lower ch) (lower c).

Definition newline : ascii := ascii_of_nat 10.

(** [.] without [re.DOTALL]: anything but a newline. *)
Definition dot_matches (ch : ascii) : bool := negb (Ascii.eqb ch newline).

(** *** Matching, by derivatives *)

Fixpoint nullable (r : regex) : bool :=
  match r with
  | Void | Lit _ | Dot => false
  | Eps | Star _ => true
  | Cat r1 r2 => nullable r1 && nullable r2
  | Alt r1 r2 => nullable r1 || nullable r2
  end.

Fixpoint deriv (ch : ascii) (r : regex) : regex :=
  match r with
  | Void | Eps => Void
  | Lit c => if lit_matches c ch then Eps else Void
  | Dot => if dot_matches ch then Eps else Void
  | Cat r1 r2 =>
      if nullable r1
      then Alt (Cat (deriv ch r1) r2) (deriv ch r2)
      else Cat (deriv ch r1) r2
  | Alt r1 r2 => Alt (deriv ch r1) (deriv ch r2)
  | Star r1 => Cat (deriv ch r1) (Star r1)
  end.

(** [pattern.match(s)]: some prefix of [s] is matched. *)
Fixpoint match_prefix (r : regex) (s : list ascii) : bool :=
  nullable r ||
  match s with
  | [] => false
  | ch :: s' => match_prefix (deriv ch r) s'
  end.

(** [pattern.search(s) is not None]: a match starts somewhere in [s]. *)
Fixpoint search (r : regex) (s : list ascii) : bool :=
  match_prefix r s ||
  match s with
  | [] => false
  | _ :: s' => search r s'
  end.

(** *** Parsing ([sre_parse]) *)

(** Whether the latest item of a branch is an atom, a repeat, or a lazy
    repeat: decides what a following [*], [+] or [?] means. *)
Inductive quant : Type := Plain | Greedy | Lazy.

(** The state of one open group: the alternatives already closed by
    [|] and the items of the current alternative, latest first. *)
Record frame : Type := mkFrame {
  branches : list regex;
  items : list (regex * quant);
}.

Definition empty_frame : frame := mkFrame [] [].

Definition push (r : regex) (f : frame) : frame :=
  mkFrame (branches f) ((r, Plain) :: items f).

Definition seq_regex (its : list (regex * quant)) : regex :=
  fold_left (fun acc it => Cat (fst it) acc) its Eps.

Definition close (f : frame) : regex :=
  fold_left (fun acc b => Alt b acc) (branches f) (seq_regex (items f)).

Definition is_quantifier (c : ascii) : bool :=
  Ascii.eqb c "*" || Ascii.eqb c "+" || Ascii.eqb c "?".

Definition quantify (q : ascii) (r : regex) : regex :=
  if Ascii.eqb q "*" then Star r
  else if Ascii.eqb q "+" then Cat r (Star r)
  else Alt r Eps.

(** A quantifier character met after the items of [f]. *)
Definition repeat (q : ascii) (f : frame) : result frame :=
  match items f with
  | [] => Raise re_error                      (* nothing to repeat *)
  | (r, Plain) :: its =>
      Ok (mkFrame (branches f) ((quantify q r, Greedy) :: its))
  | (r, Greedy) :: its =>
      if Ascii.eqb q "?" then Ok (mkFrame (branches f) ((r, Lazy) :: its))
      else if Ascii.eqb q "+" then Raise (NotModelled "possessive quantifier")
      else Raise re_error                     (* multiple repeat *)
  | (_, Lazy) :: _ => Raise re_error          (* multiple repeat *)
  end.

Definition is_alnum (c : ascii) : bool :=
  let n := nat_of_ascii c in
  ((48 <=? n) && (n <=? 57) || (65 <=? n) && (n <=? 90)
   || (97 <=? n) && (n <=? 122))%nat.

(** Characters with a meaning of their own in a pattern. *)
Definition is_special (c : ascii) : bool :=
  existsb (Ascii.eqb c)
    ["."; "^"; "$"; "*"; "+"; "?"; "{"; "["; "("; ")"; "|"; "\"]%char.

Fixpoint parse (pat : string) (cur : frame) (stack : list frame)
  : result regex :=
  match pat with
  | EmptyString =>
      match stack with
      | [] => Ok (close cur)
      | _ :: _ => Raise re_error              (* missing ) *)
      end
  | String c rest =>
      if Ascii.eqb c "(" then
        match rest with
        | String "?" _ => Raise (NotModelled "(?...) extension")
        | _ => parse rest empty_frame (cur :: stack)
        end
      else if Ascii.eqb c ")" then
        match stack with
        | [] => Raise re_error                (* unbalanced parenthesis *)
        | outer :: stack' => parse rest (push (close cur) outer) stack'
        end
      else if Ascii.eqb c "|" then
        parse rest (mkFrame (seq_regex (items cur) :: branches cur) []) stack
      else if is_quantifier c then
        match repeat c cur with
        | Ok cur' => parse rest cur' stack
        | Raise e => Raise e
        end
      else if Ascii.eqb c "." then parse rest (push Dot cur) stack
      else if Ascii.eqb c "\" then
        match rest with
        | EmptyString => Raise re_error       (* bad escape (end of pattern) *)
        | String d rest' =>
            if is_alnum d then Raise (NotModelled "escaped letter or digit")
            else parse rest' (push (Lit d) cur) stack
        end
      else if is_special c then
        Raise (NotModelled "anchor, character set or counted repeat")
      else parse rest (push (Lit c) cur) stack
  end.

(** [re.compile(pat, re.IGNORECASE)] *)
Definition compile (pat : string) : result regex :=
  parse pat empty_frame [].

(** *** What a pattern denotes *)

Inductive Matches : regex -> list ascii -> Prop :=
| MEps : Matches Eps []
| MLit c ch : lit_matches c ch = true -> Matches (Lit c) [ch]
| MDot ch : dot_matches ch = true -> Matches Dot [ch]
| MCat r1 r2 s1 s2 :
    Matches r1 s1 -> Matches r2 s2 -> Matches (Cat r1 r2) (s1 ++ s2)
| MAltL r1 r2 s : Matches r1 s -> Matches (Alt r1 r2) s
| MAltR r1 r2 s : Matches r2 s -> Matches (Alt r1 r2) s
| MStarNil r : Matches (Star r) []
| MStarApp r s1 s2 :
    Matches r s1 -> Matches (Star r) s2 -> Matches (Star r) (s1 ++ s2).

(** The pattern that spells the characters of [q]. *)
Definition literal (q : list ascii) : regex :=
  fold_right (fun c r => Cat (Lit c) r) Eps q.

End Re.

(** ** Literal containment, in the words of the specification *)

Module Literal.

Fixpoint is_prefix (p s : list ascii) : bool :=
  match p, s with
  | [], _ => true
  | _ :: _, [] => false
  | a :: p', b :: s' => Ascii.eqb a b && is_prefix p' s'
  end.

Fixpoint is_substring (p s : list ascii) : bool :=
  is_prefix p s ||
  match s with
  | [] => false
  | _ :: s' => is_substring p s'
  end.

(** [q] occurs in [x] once both are folded to lower case. *)
Definition contains_ignore_case (q x : string) : bool :=
  is_substring (map Re.lower (list_ascii_of_string q))
               (map Re.lower (list_ascii_of_string x)).

(** No character of [q] is a regular-expression metacharacter. *)
Definition plain (q : string) : bool :=
  forallb (fun c => negb (Re.is_special c)) (list_ascii_of_string q).

(** Every character of [s] is an ASCII character (a code below 128):
    the strings in which a byte is a character, and on which ignoring
    case is folding [A]-[Z] onto [a]-[z]. *)
Definition is_ascii (s : string) : bool :=
  forallb (fun c => (nat_of_ascii c <? 128)%nat) (list_ascii_of_string s).

End Literal.

(** ** pandas: the operations used on the DataFrame *)

Module Pandas.

(** [df['name']].  [pd.DataFrame([])] has no columns at all, so the
    lookup raises on a frame built from an empty list. *)
Definition column_name (df : DataFrame) : result (list string) :=
  match df with
  | [] => Raise (KeyError "name")
  | _ :: _ => Ok (map name df)
  end.

(** [col.str.contains(pat, case=False)]: the pattern is compiled once,
    then searched for in every element. *)
Definition str_contains (col : list string) (pat : string)
  : result (list bool) :=
  r ← Re.compile pat;
  Ok (map (fun x => Re.search r (list_ascii_of_string x)) col).

(** The regular-expression engine as [str.contains] uses it: a pattern
    is rejected with an error, or compiled to a test of one string.
    Which engine that is depends on how pandas stores strings: Python's
    [re] for object columns, RE2 through pyarrow for arrow-backed ones. *)
#[warning="-notation-for-abbreviation"] Notation Engine := (string -> result (string -> bool)).

(** [str.contains] over any engine. *)
Definition str_contains_with (engine : Engine) (col : list string)
    (pat : string) : result (list bool) :=
  test ← engine pat;
  Ok (map test col).

(** The engine embedded in [Re]. *)
Definition re_engine : Engine := fun pat =>
  r ← Re.compile pat;
  Ok (fun x => Re.search r (list_ascii_of_string x)).

(** [df[mask]]: the rows whose mask entry is [True]. *)
Fixpoint boolean_index (df : DataFrame) (mask : list bool) : DataFrame :=
  match df, mask with
  | row :: df', b :: mask' =>
      if b then row :: boolean_index df' mask' else boolean_index df' mask'
  | _, _ => []
  end.

(** [df.empty] *)
Definition empty (df : DataFrame) : bool :=
  match df with
  | [] => true
  | _ :: _ => false
  end.

(** [df.iloc[0].to_dict()] *)
Definition iloc0_to_dict (df : DataFrame) : result CountryRecord :=
  match df with
  | row :: _ => Ok row
  | [] => Raise IndexError
  end.

End Pandas.

(** ** folium: maps and markers, as the arguments they are built from *)

Module Folium.

Record Icon : Type := mkIcon { color : string }.

Record Marker : Type := mkMarker {
  marker_location : list num;
  popup : string;
  icon : Icon;
}.

Record Map : Type := mkMap {
  location : list num;
  zoom_start : Z;
  children : list Marker;
}.

(** One coordinate in [validate_location]: [float(coord)], which must
    not be a NaN. *)
Definition validate_coordinate (coord : num) : result spec_float :=
  f ← Py.float coord;
  if Py.isnan f then Raise ValueError else Ok f.

(** [folium.utilities.validate_location]: two numbers, checked in turn
    and kept as floats. *)
Definition validate_location (location : list num) : result (list num) :=
  match location with
  | [a; b] =>
      fa ← validate_coordinate a;
      fb ← validate_coordinate b;
      Ok [PyFloat fa; PyFloat fb]
  | _ => Raise ValueError
  end.


(** [folium.Map(location=..., zoom_start=...)] *)
Definition folium_Map (location : list num) (zoom_start : Z) : result Map :=
  loc ← validate_location location;
  Ok (mkMap loc zoom_start []).

(** [folium.Marker(location, popup=..., icon=...)] *)
Definition folium_Marker (location : list num) (popup : string)
    (icon : Icon) : result Marker :=
  loc ← validate_location location;
  Ok (mkMarker loc popup icon).

(** [marker.add_to(m)] *)
Definition add_to (mk : Marker) (m : Map) : Map :=
  mkMap (location m) (zoom_start m) (children m ++ [mk]).

End Folium.
Import Folium.
Arguments validate_location : simpl never.

(** ** The class [LanguageMapSDK] *)

Record LanguageMapSDK : Type := mkSDK { country_data : DataFrame }.

(** [__init__]: the directory is loaded once, at construction; what
    [self.country_data] holds is the frame of line 67. *)
Definition __init__ (languages : gmap string string)
    (dataset : list Country) : LanguageMapSDK :=
  mkSDK (pd_DataFrame (_load_country_data languages dataset)).

(** A method body: reads and may update [self], returns or raises. *)
Definition Method (A : Type) : Type :=
  LanguageMapSDK -> result A * LanguageMapSDK.

#[global] Instance method_ret : MRet Method := fun A a self => (Ok a, self).
#[global] Instance method_bind : MBind Method := fun A B k m self =>
  match m self with
  | (Ok a, self') => k a self'
  | (Raise e, self') => (Raise e, self')
  end.

(** [self.country_data] *)
Definition self_country_data : Method DataFrame :=
  fun self => (Ok (country_data self), self).

(** A computation that does not touch [self]. *)
Definition lift {A} (m : result A) : Method A := fun self => (m, self).

(** [get_country_info] (lines 69-74). *)
Definition get_country_info (country_name : string)
  : Method (option CountryRecord) :=
  df ← self_country_data;
  names ← lift (Pandas.column_name df);
  mask ← lift (Pandas.str_contains names country_name);
  let country := Pandas.boolean_index df mask in
  if negb (Pandas.empty country)
  then row ← lift (Pandas.iloc0_to_dict country); mret (Some row)
  else mret None.

(** [get_country_info] over any regular-expression engine. *)
Definition get_country_info_with (engine : Pandas.Engine)
    (country_name : string) : Method (option CountryRecord) :=
  df ← self_country_data;
  names ← lift (Pandas.column_name df);
  mask ← lift (Pandas.str_contains_with engine names country_name);
  let country := Pandas.boolean_index df mask in
  if negb (Pandas.empty country)
  then row ← lift (Pandas.iloc0_to_dict country); mret (Some row)
  else mret None.

(** The f-string of line 83. *)
Definition popup_text (country_info : CountryRecord) : string :=
  name country_info ++ " - Language: " ++ language country_info.

(** The marker of lines 81-85: [markerFor] of the specification. *)
Definition markerFor (country_info : CountryRecord) : result Marker :=
  folium_Marker [latitude country_info; longitude country_info]
                (popup_text country_info)
                (mkIcon "red").

(** [create_country_map] (lines 76-87). *)
Definition create_country_map (country_name : string)
  : Method (option Map) :=
  country_info ← get_country_info country_name;
  match country_info with
  | Some info =>
      m ← lift (folium_Map [latitude info; longitude info] 6);
      mk ← lift (markerFor info);
      mret (Some (add_to mk m))
  | None => mret None
  end.

(** The calls a client can make on the object once it is built. *)
Inductive call : Type :=
| GetCountryInfo (country_name : string)
| CreateCountryMap (country_name : string).

(** The object after one call. *)
Definition after_call (c : call) (self : LanguageMapSDK) : LanguageMapSDK :=
  match c with
  | GetCountryInfo q => snd (get_country_info q self)
  | CreateCountryMap q => snd (create_country_map q self)
  end.

(** The object after a sequence of calls. *)
Definition after_calls (cs : list call) (self : LanguageMapSDK)
  : LanguageMapSDK :=
  fold_left (fun s c => after_call c s) cs self.

(** The first row whose name satisfies [p], in directory order. *)
Definition first_match (p : string -> bool) (df : DataFrame)
  : option CountryRecord :=
  List.find (fun row => p (name row)) df.

(** The row an entry gives rise to, if its [try] body did not raise. *)
Definition entry_row (languages : gmap string string) (country : Country)
  : option CountryRecord :=
  match load_entry languages country with
  | Ok row => Some row
  | Raise _ => None
  end.

(** The name the language table has for the first declared code of an
    entry: [None] when the entry has no language list, an empty one, or a
    first code the table does not know. *)
Definition resolved_language (languages : gmap string string)
    (country : Country) : option string :=
  ls ← c_languages country; code ← head ls; languages !! code.

(** The row the specification expects for an entry whose language cannot
    be resolved. *)
Definition unknown_row (country : Country) : CountryRecord :=
  mkRecord (c_name country)
           (getattr (c_official_name country) (c_name country))
           (getattr (c_latitude country) (PyInt 0))
           (getattr (c_longitude country) (PyInt 0))
           "Unknown".

(** ** Sample data *)

Module Sample.

(** The float literals [30.3753] and [69.3451] (53-bit mantissas). *)
Definition lat_pk : num := PyFloat (S754_finite false 8549886860079189 (-48)).
Definition lon_pk : num := PyFloat (S754_finite false 4879727601874528 (-46)).

(** A language table that knows Urdu only. *)
Definition urdu_only : gmap string string := {[ "ur" := "Urdu" ]}.

(** The first entry of pycountry: no language list, no coordinates. *)
Definition aruba_entry : Country := mkCountry "Aruba" None None None None.

Definition afghanistan_entry : Country :=
  mkCountry "Afghanistan" (Some "Islamic Republic of Afghanistan")
            None None None.

(** The entry of the end-to-end scenario of the specification. *)
Definition pakistan_entry : Country :=
  mkCountry "Pakistan" None (Some lat_pk) (Some lon_pk) (Some ["ur"]).

(** An entry whose language code the table does not know. *)
Definition atlantis_entry : Country :=
  mkCountry "Atlantis" None None None (Some ["zz"]).

Definition aruba : CountryRecord :=
  mkRecord "Aruba" "Aruba" (PyInt 0) (PyInt 0) "Unknown".

Definition afghanistan : CountryRecord :=
  mkRecord "Afghanistan" "Islamic Republic of Afghanistan"
           (PyInt 0) (PyInt 0) "Unknown".

Definition pakistan : CountryRecord :=
  mkRecord "Pakistan" "Pakistan" lat_pk lon_pk "Urdu".

(** An object whose directory holds Aruba and Afghanistan. *)
Definition sdk : LanguageMapSDK := mkSDK [aruba; afghanistan].

(** The location folium keeps for Pakistan. *)
Definition loc_pk : list num := [lat_pk; lon_pk].






End Sample.

(** ** The Streamlit page (lines 10-18 and 36-45, 89-173)

    Streamlit runs the script from top to bottom on every interaction.
    One run is modelled as a function of the values the widgets hold in
    that run; what it puts on the page, and the requests it sends to the
    agents, are recorded in order.  The hosted model behind
    [Runner.run_sync] is a parameter: it answers with a text or raises. *)

Module App.

Record Agent : Type := mkAgent { agent_name : string; instructions : string }.

Definition translator_agent : Agent :=
  mkAgent "Translator Agent"
    "You are a multilingual translation expert. Accurately translate text between any languages while preserving meaning, context, and cultural nuances.".

Definition language_agent : Agent :=
  mkAgent "Language Identification Agent"
    "You are an expert at identifying languages and providing information about language usage in different regions.".

(** Where an element is placed. *)
Inductive place : Type := Main | Sidebar | Col1 | Col2.

Inductive element : Type :=
| st_error (body : string)
| st_title (body : string)
| st_header (body : string)
| st_subheader (body : string)
| st_text_input (label : string)
| st_text_area (label : string)
| st_selectbox (label : string) (options : list string) (index : nat)
| st_button (label : string)
| st_success (body : string)
| st_warning (body : string)
| st_info (body : string)
| st_write (body : string)
| st_markdown (body : string)
| st_spinner (text : string)
| folium_static (m : Map).

(** What a run does that can be seen from outside. *)
Inductive event : Type :=
| Render (p : place) (e : element)
| Runner_run_sync (starting_agent : Agent) (input : string).

(** The values of the environment and of the widgets in one run. *)
Record Session : Type := mkSession {
  GEMINI_API_KEY : option string;   (* os.getenv("GEMINI_API_KEY") *)
  sidebar_key : string;             (* the sidebar's password field *)
  country_input : string;
  picked_language : option nat;     (* the option picked in the selectbox,
                                       if the user picked one *)
  text_to_translate : string;
  Translate_clicked : bool;
  user_question : string;
}.

(** The object [sdk] and the page rendered so far. *)
Record World : Type := mkWorld { sdk : LanguageMapSDK; page : list event }.

(** How a piece of the script ends: it goes on with a value, [st.stop()]
    ends the run, or an exception nobody catches ends it. *)
Inductive flow (A : Type) : Type :=
| Next (a : A)
| Stop
| Uncaught (e : exn).
Arguments Next {A} a.
Arguments Stop {A}.
Arguments Uncaught {A} e.

Definition Script (A : Type) : Type := World -> flow A * World.

#[global] Instance script_ret : MRet Script := fun A a w => (Next a, w).
#[global] Instance script_bind : MBind Script := fun A B k m w =>
  match m w with
  | (Next a, w') => k a w'
  | (Stop, w') => (Stop, w')
  | (Uncaught e, w') => (Uncaught e, w')
  end.

Definition render (p : place) (e : element) : Script unit :=
  fun w => (Next tt, mkWorld (sdk w) (page w ++ [Render p e])).

(** A call of a method of [sdk]. *)
Definition call {A} (m : Method A) : Script A :=
  fun w =>
    match m (sdk w) with
    | (Ok a, self) => (Next a, mkWorld self (page w))
    | (Raise e, self) => (Uncaught e, mkWorld self (page w))
    end.

(** Truth value of a [str]. *)
Definition truthy (s : string) : bool :=
  match s with
  | EmptyString => false
  | String _ _ => true
  end.

(** Truth value of [os.getenv(...)]: [None] and the empty string are
    false. *)
Definition truthy_env (v : option string) : bool :=
  match v with
  | Some s => truthy s
  | None => false
  end.

Definition nl : string := String Re.newline EmptyString.

(** The f-string of line 115. *)
Definition location_prompt (country_info : CountryRecord) : string :=
  "What language is primarily spoken in " ++ name country_info
  ++ "? Also provide 1-2 interesting facts about language use there.".

(** The f-string of line 145. *)
Definition translation_prompt (target_language text : string) : string :=
  "Translate this to " ++ target_language
  ++ " while preserving cultural context:" ++ nl ++ nl ++ text.

Definition target_languages : list string :=
  ["Arabic"; "English"; "Urdu"; "Spanish"; "French"; "German"; "Chinese"].

(** [index=0 if country_info['language'] == "Arabic" else 1] *)
Definition default_index (country_info : CountryRecord) : nat :=
  if String.eqb (language country_info) "Arabic" then 0 else 1.

(** The value of [st.selectbox]: the option the user picked, or the
    option at [index] if none was picked. *)
Definition selectbox_value (options : list string) (index : nat)
    (picked : option nat) : string :=
  let i := match picked with
           | Some i => if (i <? length options)%nat then i else index
           | None => index
           end in
  nth i options "".

(** ["language" in user_question.lower()] *)
Definition mentions_language (question : string) : bool :=
  Literal.is_substring (list_ascii_of_string "language")
    (map Re.lower (list_ascii_of_string question)).

(** The agent of line 160. *)
Definition expert_agent (question : string) : Agent :=
  if mentions_language question then language_agent else translator_agent.

Definition howto : string :=
  "
### How to use this app:
1. Enter a country or city name in the search box
2. View the map and language information
3. Enter text to translate to/from the local language
4. Or ask questions to the language expert
".

Section Page.

(** The reference data [LanguageMapSDK()] loads. *)
Variable languages : gmap string string.
Variable dataset : list Country.

(** [Runner.run_sync(agent, input=..., run_config=config).final_output] *)
Variable final_output : Agent -> string -> result string.

Definition run_sync (starting_agent : Agent) (input : string)
  : Script string :=
  fun w =>
    let w' := mkWorld (sdk w) (page w ++ [Runner_run_sync starting_agent input]) in
    match final_output starting_agent input with
    | Ok out => (Next out, w')
    | Raise e => (Uncaught e, w')
    end.

(** [with col1:] (lines 103-127).  The result is [country_info] as the
    next block tests it in [country_input and country_info]: [None] also
    when [country_input] is empty and the name was never bound. *)
Definition col1 (s : Session) : Script (option CountryRecord) :=
  render Col1 (st_subheader "Find a Location");;
  render Col1 (st_text_input "Enter a country or city (e.g., 'Madina'):");;
  if truthy (country_input s) then
    country_info ← call (get_country_info (country_input s));
    match country_info with
    | Some info =>
        render Col1 (st_success ("Found: " ++ name info));;
        lang_response ← run_sync language_agent (location_prompt info);
        render Col1 (st_write lang_response);;
        render Col1 (st_subheader ("Map of " ++ name info));;
        country_map ← call (create_country_map (country_input s));
        match country_map with
        | Some m => render Col1 (folium_static m)
        | None => mret tt
        end;;
        mret (Some info)
    | None =>
        render Col1 (st_warning "Location not found. Try a different name.");;
        mret None
    end
  else mret None.

(** [with col2:] (lines 129-151). *)
Definition col2 (s : Session) (country_info : option CountryRecord)
  : Script unit :=
  render Col2 (st_subheader "Language Translation");;
  match country_info with
  | Some info =>
      render Col2 (st_selectbox "Translate to:" target_languages
                     (default_index info));;
      let target_language :=
        selectbox_value target_languages (default_index info)
                        (picked_language s) in
      render Col2 (st_text_area "Enter text to translate:");;
      render Col2 (st_button "Translate");;
      if Translate_clicked s then
        if truthy (text_to_translate s) then
          render Col2 (st_spinner "Translating...");;
          translation ← run_sync translator_agent
                          (translation_prompt target_language
                             (text_to_translate s));
          render Col2 (st_success "Translation:");;
          render Col2 (st_write translation)
        else render Col2 (st_warning "Please enter text to translate")
      else mret tt
  | None => mret tt
  end.

(** Lines 153-164. *)
Definition ask_expert (s : Session) : Script unit :=
  render Main (st_subheader "Ask the Language Expert");;
  render Main (st_text_input "Ask anything about languages or translations:");;
  if truthy (user_question s) then
    render Main (st_spinner "Consulting the language expert...");;
    response ← run_sync (expert_agent (user_question s)) (user_question s);
    render Main (st_info response)
  else mret tt.

(** Lines 93-173, run once [sdk] exists.  (The title starts with an
    emoji, kept as the bytes of its UTF-8 encoding.) *)
Definition body (s : Session) : Script unit :=
  render Main (st_title "🌍 World Language Translator with Map (Gemini)");;
  render Sidebar (st_header "Settings");;
  (if negb (truthy_env (GEMINI_API_KEY s))
   then render Sidebar (st_text_input "Gemini API Key")
   else mret tt);;
  country_info ← col1 s;
  col2 s country_info;;
  ask_expert s;;
  render Main (st_markdown howto).

(** One run of the script: how it ends and the page it leaves. *)
Definition app (s : Session) : flow unit * list event :=
  if negb (truthy_env (GEMINI_API_KEY s)) then
    (Stop,
     [Render Main (st_error "GEMINI_API_KEY is not set. Please ensure it is defined in your .env file.")])
  else
    let '(end_, w) := body s (mkWorld (__init__ languages dataset) []) in
    (end_, page w).

End Page.

(** The requests a run sent to the agents, in order. *)
Definition requests (evs : list event) : list (Agent * string) :=
  omap (fun ev => match ev with
                  | Runner_run_sync a input => Some (a, input)
                  | Render _ _ => None
                  end) evs.

(** The elements a run rendered, in order. *)
Definition rendered (evs : list event) : list (place * element) :=
  omap (fun ev => match ev with
                  | Render p e => Some (p, e)
                  | Runner_run_sync _ _ => None
                  end) evs.

End App.

(** ** Sample runs of the page *)

Module AppSample.
Import App.

(** A model that answers every request by repeating it. *)
Definition echo (a : Agent) (input : string) : result string :=
  Ok ("[" ++ agent_name a ++ "] " ++ input)%string.

(** A run with the key set, nothing picked or clicked. *)
Definition session (country question : string) : Session :=
  mkSession (Some "key") "" country None "" false question.

(** The same run with a text to translate and a click on Translate. *)
Definition translating (country text : string) : Session :=
  mkSession (Some "key") "" country None text true "".

End AppSample.

(** * Properties *)

(** ** Numbers *)

Lemma int_zero_eq_float_zero : Py.eq (PyInt 0) float_zero = true.
Proof. reflexivity. Qed.

(** ** Integers as doubles *)

Section NumFacts.

Local Open Scope Z_scope.











End NumFacts.

(** ** Loading the directory *)

Section LoadFacts.

Variable languages : gmap string string.
Implicit Types (country : Country) (dataset : list Country)
               (row : CountryRecord) (df : DataFrame).

Lemma load_loop_omap dataset df :
  load_loop languages dataset df = df ++ omap (entry_row languages) dataset.
Proof.
  revert df. induction dataset as [|country rest IH]; intros df; simpl.
  - by rewrite app_nil_r.
  - unfold entry_row at 1.
    destruct (load_entry languages country) as [row|e]; rewrite IH.
    + by rewrite <- app_assoc.
    + done.
Qed.

Lemma load_omap dataset :
  _load_country_data languages dataset = omap (entry_row languages) dataset.
Proof. unfold _load_country_data. by rewrite load_loop_omap. Qed.

Lemma load_app ds1 ds2 :
  _load_country_data languages (ds1 ++ ds2)
  = _load_country_data languages ds1 ++ _load_country_data languages ds2.
Proof. rewrite !load_omap. apply omap_app. Qed.

Lemma load_cons country rest :
  _load_country_data languages (country :: rest)
  = match entry_row languages country with
    | Some row => [row]
    | None => []
    end ++ _load_country_data languages rest.
Proof.
  rewrite !load_omap. simpl.
  by destruct (entry_row languages country).
Qed.

(** An entry without a language list is kept, with ["Unknown"]. *)
Lemma entry_row_no_languages country :
  c_languages country = None ->
  entry_row languages country = Some (unknown_row country).
Proof.
  intros H. unfold entry_row, load_entry. by rewrite H.
Qed.

(** An entry with a language list gives a row exactly when its first
    code resolves. *)
Lemma entry_row_languages country ls :
  c_languages country = Some ls ->
  entry_row languages country
  = lang ← resolved_language languages country;
    Some (mkRecord (c_name country)
            (getattr (c_official_name country) (c_name country))
            (getattr (c_latitude country) (PyInt 0))
            (getattr (c_longitude country) (PyInt 0))
            lang).
Proof.
  intros H. unfold entry_row, load_entry, resolved_language.
  rewrite H. simpl. destruct ls as [|code ls']; simpl; [done|].
  unfold languages_get_name. by destruct (languages !! code).
Qed.

Lemma load_entry_name country row :
  load_entry languages country = Ok row -> name row = c_name country.
Proof.
  unfold load_entry. intros H.
  destruct (match c_languages country with
            | Some ls => _
            | None => _
            end) as [lang|e]; simpl in H; [|done].
  by inversion H.
Qed.

(** The loop as a function computes the only finished run of the loop
    as a transition system. *)
Lemma load_loop_run dataset df :
  rtc (load_step languages) (dataset, df)
      ([], load_loop languages dataset df).
Proof.
  revert df. induction dataset as [|country rest IH]; intros df; simpl.
  - apply rtc_refl.
  - destruct (load_entry languages country) as [row|e] eqn:E.
    + eapply rtc_l; [by apply load_append|]. apply IH.
    + eapply rtc_l; [by eapply load_skip|]. apply IH.
Qed.

Lemma load_run_unique dataset df df' :
  rtc (load_step languages) (dataset, df) ([], df') ->
  df' = load_loop languages dataset df.
Proof.
  revert df. induction dataset as [|country rest IH]; intros df Hrun.
  - inversion Hrun as [|? ? ? Hstep]; subst; [done|]. inversion Hstep.
  - inversion Hrun as [|? ? ? Hstep Hrest]; subst.
    inversion Hstep as [? ? ? row E|? ? ? e E]; subst;
      simpl; rewrite E; by apply IH.
Qed.

(** ** The frame of line 67 *)

Lemma pd_DataFrame_names (countries : list CountryRecord) :
  map name (pd_DataFrame countries) = map name countries.
Proof. unfold pd_DataFrame. rewrite map_map. by apply map_ext. Qed.

Lemma pd_DataFrame_length (countries : list CountryRecord) :
  length (pd_DataFrame countries) = length countries.
Proof. unfold pd_DataFrame. apply length_map. Qed.

(** A row of the frame is a row of the list, with its coordinates at
    the dtype of their columns. *)
Lemma pd_DataFrame_elem (countries : list CountryRecord) (row : CountryRecord) :
  row ∈ pd_DataFrame countries <->
  exists r, r ∈ countries
    /\ row = mkRecord (name r) (official_name r)
               (Pd.astype (Pd.infer (map latitude countries)) (latitude r))
               (Pd.astype (Pd.infer (map longitude countries)) (longitude r))
               (language r).
Proof.
  unfold pd_DataFrame. rewrite list_elem_of_fmap. split.
  - intros (r & -> & Hr). by exists r.
  - intros (r & Hr & ->). by exists r.
Qed.

Lemma pd_DataFrame_nil (countries : list CountryRecord) :
  pd_DataFrame countries = [] <-> countries = [].
Proof.
  split; [|by intros ->]. destruct countries; [done|]. discriminate.
Qed.

End LoadFacts.

(** ** The two methods, as functions of the directory *)

Section Methods.

Implicit Types (self : LanguageMapSDK) (df : DataFrame)
               (row : CountryRecord) (q : string).

Lemma boolean_index_map (p : string -> bool) df :
  Pandas.boolean_index df (map p (map name df))
  = List.filter (fun row => p (name row)) df.
Proof.
  induction df as [|row df IH]; simpl; [done|].
  rewrite IH. by destruct (p (name row)).
Qed.

Lemma head_filter_find {A} (p : A -> bool) (l : list A) :
  head (List.filter p l) = List.find p l.
Proof.
  induction l as [|x l IH]; simpl; [done|]. by destruct (p x).
Qed.

(** On a frame without rows the column lookup raises, whatever the query. *)
Lemma get_country_info_no_rows q self :
  country_data self = [] ->
  get_country_info q self = (Raise (KeyError "name"), self).
Proof.
  intros H. unfold get_country_info, mbind, method_bind, self_country_data,
    lift. by rewrite H.
Qed.

(** A query that does not compile raises out of the method. *)
Lemma get_country_info_raise q self e :
  country_data self <> [] ->
  Re.compile q = Raise e ->
  get_country_info q self = (Raise e, self).
Proof.
  intros Hne Hc.
  unfold get_country_info, mbind, method_bind, self_country_data, lift.
  destruct (country_data self) as [|row df] eqn:E; [done|].
  unfold Pandas.column_name, Pandas.str_contains, mbind, result_bind.
  by rewrite Hc.
Qed.

(** A query that compiles selects the first row whose name it is found in. *)
Lemma get_country_info_search q self r :
  country_data self <> [] ->
  Re.compile q = Ok r ->
  get_country_info q self
  = (Ok (first_match (fun x => Re.search r (list_ascii_of_string x))
                     (country_data self)), self).
Proof.
  intros Hne Hc.
  unfold get_country_info, mbind, method_bind, self_country_data, lift.
  destruct (country_data self) as [|row0 df0] eqn:E; [done|].
  unfold Pandas.column_name, Pandas.str_contains, mbind, result_bind.
  rewrite Hc. cbv beta iota.
  rewrite boolean_index_map. unfold first_match.
  rewrite <- head_filter_find.
  by destruct (List.filter _ (row0 :: df0)).
Qed.

Lemma get_country_info_frame q self :
  snd (get_country_info q self) = self.
Proof.
  destruct (country_data self) as [|row df] eqn:E.
  - by rewrite get_country_info_no_rows.
  - destruct (Re.compile q) as [r|e] eqn:Hc.
    + rewrite (get_country_info_search q self r); [done| by rewrite E |done].
    + rewrite (get_country_info_raise q self e); [done| by rewrite E |done].
Qed.



Lemma validate_coordinate_nan :
  validate_coordinate (PyFloat S754_nan) = Raise ValueError.
Proof. reflexivity. Qed.



(** The map [create_country_map] builds for a row. *)
Lemma create_country_map_unfold q self :
  create_country_map q self
  = (match fst (get_country_info q self) with
     | Ok (Some info) =>
         match validate_location [latitude info; longitude info] with
         | Ok loc =>
             Ok (Some (mkMap loc 6
                             [mkMarker loc (popup_text info) (mkIcon "red")]))
         | Raise e => Raise e
         end
     | Ok None => Ok None
     | Raise e => Raise e
     end, self).
Proof.
  unfold create_country_map, mbind, method_bind.
  pose proof (get_country_info_frame q self) as Hf.
  destruct (get_country_info q self) as [[[info|]|e] self']; simpl in *;
    subst; try done.
  unfold lift, markerFor, folium_Map, folium_Marker, mbind, result_bind.
  by destruct (validate_location [latitude info; longitude info]).
Qed.

Lemma create_country_map_frame q self :
  snd (create_country_map q self) = self.
Proof. by rewrite create_country_map_unfold. Qed.

(** The lookup over the engine of [Re] is the lookup. *)
Lemma get_country_info_re_engine q self :
  get_country_info_with Pandas.re_engine q self = get_country_info q self.
Proof.
  unfold get_country_info_with, get_country_info, mbind, method_bind,
    self_country_data, lift.
  destruct (Pandas.column_name (country_data self)) as [names|e]; [|done].
  unfold Pandas.str_contains_with, Pandas.str_contains, Pandas.re_engine,
    mbind, result_bind.
  by destruct (Re.compile q).
Qed.

(** A query the engine accepts selects the first row whose name passes
    the compiled test; a query it rejects raises out of the method. *)
Lemma get_country_info_with_test (engine : Pandas.Engine) q self test :
  country_data self <> [] ->
  engine q = Ok test ->
  get_country_info_with engine q self
  = (Ok (first_match test (country_data self)), self).
Proof.
  intros Hne Hc.
  unfold get_country_info_with, mbind, method_bind, self_country_data, lift.
  destruct (country_data self) as [|row0 df0] eqn:E; [done|].
  unfold Pandas.column_name, Pandas.str_contains_with, mbind, result_bind.
  rewrite Hc. cbv beta iota.
  rewrite boolean_index_map. unfold first_match.
  rewrite <- head_filter_find.
  by destruct (List.filter _ (row0 :: df0)).
Qed.

Lemma get_country_info_with_raise (engine : Pandas.Engine) q self e :
  country_data self <> [] ->
  engine q = Raise e ->
  get_country_info_with engine q self = (Raise e, self).
Proof.
  intros Hne Hc.
  unfold get_country_info_with, mbind, method_bind, self_country_data, lift.
  destruct (country_data self) as [|row df] eqn:E; [done|].
  unfold Pandas.column_name, Pandas.str_contains_with, mbind, result_bind.
  by rewrite Hc.
Qed.

Lemma after_call_frame c self : after_call c self = self.
Proof.
  destruct c; simpl;
    [apply get_country_info_frame | apply create_country_map_frame].
Qed.

Lemma after_calls_frame cs self : after_calls cs self = self.
Proof.
  unfold after_calls. revert self.
  induction cs as [|c cs IH]; intros self; simpl; [done|].
  by rewrite after_call_frame.
Qed.

End Methods.

(** ** The matcher against what a pattern denotes *)

Module ReFacts.
Import Re.

Create HintDb re.
#[local] Hint Constructors Matches : re.

Lemma nullable_matches_nil r : nullable r = true <-> Matches r [].
Proof.
  split.
  - induction r; simpl; intros H; try discriminate; eauto with re.
    + apply andb_true_iff in H as [H1 H2].
      change (@nil ascii) with (@nil ascii ++ []). eauto with re.
    + apply orb_true_iff in H as [H|H]; eauto with re.
  - intros H. remember [] as s eqn:Es.
    induction H; subst; simpl; try done.
    + apply app_eq_nil in Es as [-> ->]. by rewrite IHMatches1, IHMatches2.
    + by rewrite IHMatches.
    + rewrite IHMatches; [|done]. apply orb_true_r.
Qed.

(** A non-empty match of a star begins with a non-empty match of its
    body. *)
Lemma matches_star_cons r ch s :
  Matches (Star r) (ch :: s) ->
  exists s1 s2, s = s1 ++ s2 /\ Matches r (ch :: s1) /\ Matches (Star r) s2.
Proof.
  intros H. remember (Star r) as r' eqn:Er. remember (ch :: s) as s' eqn:Es.
  induction H; try discriminate.
  inversion Er; subst. clear IHMatches1.
  destruct s1 as [|a s1]; simpl in Es.
  - by apply IHMatches2.
  - inversion Es; subst. eauto.
Qed.

Lemma deriv_sound ch r s : Matches (deriv ch r) s -> Matches r (ch :: s).
Proof.
  revert s. induction r; simpl; intros s H.
  - inversion H.
  - inversion H.
  - destruct (lit_matches c ch) eqn:E; inversion H; subst. by constructor.
  - destruct (dot_matches ch) eqn:E; inversion H; subst. by constructor.
  - destruct (nullable r1) eqn:N.
    + inversion H as [| | | | ? ? ? HL | ? ? ? HR | |]; subst.
      * inversion HL; subst.
        change (ch :: s1 ++ s2) with ((ch :: s1) ++ s2). eauto with re.
      * apply nullable_matches_nil in N.
        change (ch :: s) with ([] ++ ch :: s). eauto with re.
    + inversion H; subst.
      change (ch :: s1 ++ s2) with ((ch :: s1) ++ s2). eauto with re.
  - inversion H; subst; eauto with re.
  - inversion H; subst.
    change (ch :: s1 ++ s2) with ((ch :: s1) ++ s2). eauto with re.
Qed.

Lemma deriv_complete ch r s : Matches r (ch :: s) -> Matches (deriv ch r) s.
Proof.
  revert s. induction r; simpl; intros s H.
  - inversion H.
  - inversion H.
  - inversion H as [|? ? E| | | | | |]; subst. rewrite E. constructor.
  - inversion H as [| |? E| | | | |]; subst. rewrite E. constructor.
  - inversion H; subst.
    match goal with
    | Es : ?s1 ++ _ = _ :: _, H1 : Matches r1 ?s1 |- _ =>
        destruct s1 as [|a s1]; simpl in Es; inversion Es; subst;
        [apply nullable_matches_nil in H1; rewrite H1
        |destruct (nullable r1)]
    end; eauto with re.
  - inversion H; subst; eauto with re.
  - apply matches_star_cons in H as (s1 & s2 & -> & H1 & H2).
    eauto with re.
Qed.

Lemma match_prefix_spec r s :
  match_prefix r s = true <->
  exists s1 s2, s = s1 ++ s2 /\ Matches r s1.
Proof.
  revert r. induction s as [|ch s IH]; intros r; simpl.
  - rewrite orb_false_r, nullable_matches_nil. split.
    + intros H. by exists [], [].
    + intros (s1 & s2 & E & H). symmetry in E.
      by apply app_eq_nil in E as [-> _].
  - rewrite orb_true_iff, nullable_matches_nil, IH. split.
    + intros [H|(s1 & s2 & -> & H)].
      * by exists [], (ch :: s).
      * exists (ch :: s1), s2. split; [done|]. by apply deriv_sound.
    + intros (s1 & s2 & E & H). destruct s1 as [|a s1]; simpl in E.
      * by left.
      * inversion E; subst. right. exists s1, s2.
        split; [done|]. by apply deriv_complete.
Qed.

(** [search] finds a match exactly when some slice of the subject is in
    the language of the pattern. *)
Lemma search_spec r s :
  search r s = true <->
  exists pre mid post, s = pre ++ mid ++ post /\ Matches r mid.
Proof.
  induction s as [|ch s IH]; cbn [search].
  - rewrite orb_false_r, match_prefix_spec. split.
    + intros (s1 & s2 & E & H). by exists [], s1, s2.
    + intros (pre & mid & post & E & H). symmetry in E.
      apply app_eq_nil in E as [-> E]. apply app_eq_nil in E as [-> ->].
      by exists [], [].
  - rewrite orb_true_iff, match_prefix_spec, IH. split.
    + intros [(s1 & s2 & E & H)|(pre & mid & post & -> & H)].
      * by exists [], s1, s2.
      * by exists (ch :: pre), mid, post.
    + intros (pre & mid & post & E & H). destruct pre as [|a pre]; simpl in E.
      * left. by exists mid, post.
      * inversion E; subst. right. by exists pre, mid, post.
Qed.

End ReFacts.

(** ** Queries without metacharacters *)

Module LiteralFacts.
Import Re Literal.

Lemma lit_matches_lower c ch : lit_matches c ch = true <-> lower ch = lower c.
Proof. unfold lit_matches. apply Ascii.eqb_eq. Qed.

(** The pattern spelling [q] matches the strings equal to [q] up to case. *)
Lemma matches_literal q s :
  Matches (literal q) s <-> map lower s = map lower q.
Proof.
  revert s. induction q as [|c q IH]; intros s; simpl.
  - split.
    + intros H. by inversion H.
    + intros H. destruct s; [constructor | discriminate].
  - split.
    + intros H. inversion H as [| | |? ? s1 s2 H1 H2| | | |]; subst.
      inversion H1; subst. simpl. f_equal.
      * by apply lit_matches_lower.
      * by apply IH.
    + intros H. destruct s as [|ch s]; [discriminate|].
      simpl in H. inversion H.
      change (ch :: s) with ([ch] ++ s). constructor.
      * constructor. by apply lit_matches_lower.
      * by apply IH.
Qed.

Lemma is_prefix_spec p s :
  is_prefix p s = true <-> exists post, s = p ++ post.
Proof.
  revert s. induction p as [|a p IH]; intros s; simpl.
  - split; [intros _; by exists s | done].
  - destruct s as [|b s].
    + split; [done | intros (post & E); discriminate].
    + rewrite andb_true_iff, Ascii.eqb_eq, IH. split.
      * intros (-> & post & ->). by exists post.
      * intros (post & E). inversion E; subst. split; [done | by exists post].
Qed.

Lemma is_substring_spec p s :
  is_substring p s = true <-> exists pre post, s = pre ++ p ++ post.
Proof.
  induction s as [|b s IH]; cbn [is_substring].
  - rewrite orb_false_r, is_prefix_spec. split.
    + intros (post & E). by exists [], post.
    + intros (pre & post & E). symmetry in E.
      apply app_eq_nil in E as [-> E]. by exists post.
  - rewrite orb_true_iff, is_prefix_spec, IH. split.
    + intros [(post & E)|(pre & post & ->)].
      * by exists [], post.
      * by exists (b :: pre), post.
    + intros (pre & post & E). destruct pre as [|a pre]; simpl in E.
      * left. by exists post.
      * inversion E; subst. right. by exists pre, post.
Qed.

(** Searching for the pattern that spells [q] is looking for [q] as a
    substring, both folded to lower case. *)
Lemma search_literal q s :
  search (literal q) s = is_substring (map lower q) (map lower s).
Proof.
  apply eq_true_iff_eq.
  rewrite ReFacts.search_spec, is_substring_spec. split.
  - intros (pre & mid & post & -> & H). apply matches_literal in H.
    exists (map lower pre), (map lower post).
    by rewrite !map_app, H.
  - intros (pre & post & E).
    apply map_eq_app in E as (s1 & s23 & -> & <- & E).
    apply map_eq_app in E as (s2 & s3 & -> & E & <-).
    exists s1, s2, s3. split; [done|]. by apply matches_literal.
Qed.

Lemma parse_literal_char c rest cur stack :
  is_special c = false ->
  parse (String c rest) cur stack = parse rest (push (Lit c) cur) stack.
Proof.
  intros H. pose proof H as H'. unfold is_special in H'. simpl in H'.
  repeat match type of H' with
         | (_ || _) = false => apply orb_false_elim in H' as [? H']
         end.
  cbn [parse]. unfold is_quantifier.
  repeat match goal with
         | E : Ascii.eqb c ?x = false |- _ => rewrite E; clear E
         end.
  simpl. by rewrite H.
Qed.

Lemma parse_plain q cur stack :
  plain q = true ->
  parse q cur stack
  = parse "" (mkFrame (branches cur)
                (rev (map (fun c => (Lit c, Plain)) (list_ascii_of_string q))
                 ++ items cur)) stack.
Proof.
  unfold plain. revert cur.
  induction q as [|c q IH]; intros cur H.
  - by destruct cur.
  - simpl in H. apply andb_true_iff in H as [Hc Hq].
    apply negb_true_iff in Hc.
    rewrite parse_literal_char, IH by done.
    simpl. by rewrite <- app_assoc.
Qed.

Lemma seq_regex_rev_literal q :
  seq_regex (rev (map (fun c => (Lit c, Plain)) q)) = literal q.
Proof.
  unfold seq_regex. induction q as [|c q IH]; simpl; [done|].
  by rewrite fold_left_app, IH.
Qed.

(** A query without metacharacters compiles to the pattern that spells it. *)
Lemma compile_plain q :
  plain q = true -> compile q = Ok (literal (list_ascii_of_string q)).
Proof.
  intros H. unfold compile. rewrite parse_plain by done.
  simpl. unfold close. simpl.
  by rewrite app_nil_r, seq_regex_rev_literal.
Qed.

(** So [str.contains] with such a query is literal containment. *)
Lemma search_plain q x :
  search (literal (list_ascii_of_string q)) (list_ascii_of_string x)
  = contains_ignore_case q x.
Proof. apply search_literal. Qed.

(** The empty pattern is found in every string. *)
Lemma search_eps s : search Eps s = true.
Proof. by destruct s. Qed.

End LiteralFacts.

(** ** The directory after load *)

(** C2 (as stated, refuted): with a language table that knows only
    ["ur"], the entry Atlantis, whose only code is ["zz"], leaves no
    record in the built directory: the directory holds Pakistan alone,
    and in particular no record for Atlantis with language ["Unknown"]. *)
Lemma unresolved_code_drops_entry :
  resolved_language Sample.urdu_only Sample.atlantis_entry = None
  /\ _load_country_data Sample.urdu_only
       [Sample.pakistan_entry; Sample.atlantis_entry] = [Sample.pakistan]
  /\ ~ exists row,
         row ∈ _load_country_data Sample.urdu_only
                 [Sample.pakistan_entry; Sample.atlantis_entry]
         /\ name row = c_name Sample.atlantis_entry
         /\ language row = "Unknown".
Proof.
  assert (E : _load_country_data Sample.urdu_only
                [Sample.pakistan_entry; Sample.atlantis_entry]
              = [Sample.pakistan]) by (vm_compute; reflexivity).
  split; [vm_compute; reflexivity|]. split; [exact E|].
  rewrite E. intros (row & Hin & Hname & _).
  apply list_elem_of_singleton in Hin. subst row. discriminate Hname.
Qed.

(** C2 (amended): for an entry whose language cannot be resolved, the
    load never aborts and the rows of all other entries are unaffected;
    if the entry has no language list its row is built, in place, with
    language ["Unknown"]; if it has a list (empty, or with an unknown
    first code) the entry is skipped and leaves no row. *)
Theorem load_unresolved_language
    (languages : gmap string string) (before after : list Country)
    (country : Country) :
  resolved_language languages country = None ->
  (c_languages country = None ->
     _load_country_data languages (before ++ country :: after)
     = _load_country_data languages before
       ++ [mkRecord (c_name country)
             (getattr (c_official_name country) (c_name country))
             (getattr (c_latitude country) (PyInt 0))
             (getattr (c_longitude country) (PyInt 0))
             "Unknown"]
       ++ _load_country_data languages after)
  /\ (c_languages country <> None ->
        _load_country_data languages (before ++ country :: after)
        = _load_country_data languages before
          ++ _load_country_data languages after).
Proof.
  intros Hres. rewrite load_app, load_cons. split.
  - intros Hnone. by rewrite entry_row_no_languages.
  - intros Hsome. destruct (c_languages country) as [ls|] eqn:E; [|done].
    rewrite (entry_row_languages languages country ls E), Hres. done.
Qed.

Lemma load_unresolved_language_witness :
  resolved_language Sample.urdu_only Sample.atlantis_entry = None
  /\ c_languages Sample.atlantis_entry <> None
  /\ _load_country_data Sample.urdu_only
       ([Sample.pakistan_entry] ++ Sample.atlantis_entry
          :: [Sample.aruba_entry])
     = _load_country_data Sample.urdu_only [Sample.pakistan_entry]
       ++ _load_country_data Sample.urdu_only [Sample.aruba_entry].
Proof.
  assert (Hres : resolved_language Sample.urdu_only Sample.atlantis_entry
                 = None) by (vm_compute; reflexivity).
  assert (Hls : c_languages Sample.atlantis_entry <> None) by discriminate.
  split; [exact Hres|]. split; [exact Hls|].
  exact (proj2 (load_unresolved_language Sample.urdu_only
                  [Sample.pakistan_entry] [Sample.aruba_entry]
                  Sample.atlantis_entry Hres) Hls).
Defined.




(** C7: if every entry of the dataset has a non-empty name, every row of
    the directory built from it has a non-empty name, and this still
    holds after any sequence of calls on the object. *)
Theorem names_non_empty
    (languages : gmap string string) (dataset : list Country)
    (calls : list call) :
  Forall (fun country => c_name country <> "") dataset ->
  Forall (fun row => name row <> "")
         (country_data (__init__ languages dataset))
  /\ Forall (fun row => name row <> "")
            (country_data (after_calls calls (__init__ languages dataset))).
Proof.
  intros Hnames.
  assert (Hrows : Forall (fun row => name row <> "")
                    (country_data (__init__ languages dataset))).
  { assert (Hlist : Forall (fun row => name row <> "")
                      (_load_country_data languages dataset)).
    { rewrite load_omap.
      induction Hnames as [|country rest Hc _ IH]; simpl; [constructor|].
      unfold entry_row at 1.
      destruct (load_entry languages country) as [row|e] eqn:E; [|done].
      constructor; [|done].
      by rewrite (load_entry_name languages country row E). }
    unfold __init__. simpl. rewrite Forall_forall in Hlist.
    apply Forall_forall. intros row Hin.
    apply pd_DataFrame_elem in Hin as (r & Hr & ->). simpl.
    by apply Hlist. }
  split; [done|]. by rewrite after_calls_frame.
Qed.

Lemma names_non_empty_witness :
  Forall (fun country => c_name country <> "")
         [Sample.aruba_entry; Sample.pakistan_entry]
  /\ Forall (fun row => name row <> "")
            (country_data
               (after_calls [GetCountryInfo "aru"; CreateCountryMap "("]
                  (__init__ Sample.urdu_only
                     [Sample.aruba_entry; Sample.pakistan_entry]))).
Proof.
  assert (H : Forall (fun country => c_name country <> "")
                [Sample.aruba_entry; Sample.pakistan_entry])
    by (repeat constructor; discriminate).
  split; [exact H|].
  exact (proj2 (names_non_empty Sample.urdu_only
                  [Sample.aruba_entry; Sample.pakistan_entry]
                  [GetCountryInfo "aru"; CreateCountryMap "("] H)).
Defined.

(** C8: two complete runs of the load over the same dataset (and the
    same language table) end with the same directory, the one the
    constructor stores. *)
Theorem build_twice_same
    (languages : gmap string string) (dataset : list Country)
    (df1 df2 : DataFrame) :
  builds languages dataset df1 ->
  builds languages dataset df2 ->
  df1 = df2 /\ df1 = country_data (__init__ languages dataset).
Proof.
  unfold builds. intros (l1 & H1 & ->) (l2 & H2 & ->).
  apply load_run_unique in H1, H2. by subst.
Qed.

Lemma build_twice_same_witness :
  builds Sample.urdu_only [Sample.pakistan_entry; Sample.atlantis_entry]
         [Sample.pakistan]
  /\ [Sample.pakistan]
     = country_data (__init__ Sample.urdu_only
                       [Sample.pakistan_entry; Sample.atlantis_entry]).
Proof.
  assert (H : builds Sample.urdu_only
                [Sample.pakistan_entry; Sample.atlantis_entry]
                [Sample.pakistan]).
  { exists [Sample.pakistan]. split; [|reflexivity].
    eapply rtc_l.
    { apply (load_append _ _ _ [] Sample.pakistan). reflexivity. }
    eapply rtc_l.
    { apply (load_skip _ _ _ _ (AttributeError "name")). reflexivity. }
    apply rtc_refl. }
  split; [exact H|].
  exact (proj2 (build_twice_same Sample.urdu_only
                  [Sample.pakistan_entry; Sample.atlantis_entry]
                  [Sample.pakistan] [Sample.pakistan] H H)).
Defined.

(** ** The query *)

Section Query.

Implicit Types (self : LanguageMapSDK) (df : DataFrame)
               (row : CountryRecord) (q : string).

Lemma first_match_ext (p1 p2 : string -> bool) df :
  (forall x, p1 x = p2 x) -> first_match p1 df = first_match p2 df.
Proof.
  intros H. unfold first_match.
  induction df as [|row df IH]; simpl; [done|]. by rewrite H, IH.
Qed.

Lemma first_match_some (p : string -> bool) df row :
  first_match p df = Some row ->
  exists before after,
    df = before ++ row :: after
    /\ p (name row) = true
    /\ Forall (fun r => p (name r) = false) before.
Proof.
  unfold first_match. induction df as [|r df IH]; simpl; [done|].
  destruct (p (name r)) eqn:E.
  - intros [= ->]. by exists [], df.
  - intros H. destruct (IH H) as (before & after & -> & Hp & Hb).
    exists (r :: before), after. by repeat split; try constructor.
Qed.

Lemma first_match_none (p : string -> bool) df :
  first_match p df = None -> Forall (fun r => p (name r) = false) df.
Proof.
  unfold first_match. induction df as [|r df IH]; simpl; [constructor|].
  destruct (p (name r)) eqn:E; [done|]. intros H. constructor; auto.
Qed.

(** With a query free of metacharacters the method is the literal,
    case-blind lookup. *)
Lemma get_country_info_plain q self :
  country_data self <> [] ->
  Literal.plain q = true ->
  get_country_info q self
  = (Ok (first_match (Literal.contains_ignore_case q) (country_data self)),
     self).
Proof.
  intros Hne Hq.
  rewrite (get_country_info_search q self _ Hne
             (LiteralFacts.compile_plain q Hq)).
  f_equal. f_equal. apply first_match_ext. intros x.
  apply LiteralFacts.search_plain.
Qed.

(** Two spellings of a query that differ only in case get the same
    answer. *)
Lemma get_country_info_ignores_case q1 q2 self :
  country_data self <> [] ->
  Literal.plain q1 = true -> Literal.plain q2 = true ->
  map Re.lower (list_ascii_of_string q1)
  = map Re.lower (list_ascii_of_string q2) ->
  get_country_info q1 self = get_country_info q2 self.
Proof.
  intros Hne H1 H2 E. rewrite !get_country_info_plain by done.
  f_equal. f_equal. apply first_match_ext. intros x.
  unfold Literal.contains_ignore_case. by rewrite E.
Qed.

End Query.




(** C3 (as stated, refuted): the query ["("] is not a valid regular
    expression, and the method raises instead of returning. *)
Lemma open_paren_query_raises :
  (exists e, fst (get_country_info "(" Sample.sdk) = Raise e)
  /\ ~ exists res, fst (get_country_info "(" Sample.sdk) = Ok res.
Proof.
  assert (E : fst (get_country_info "(" Sample.sdk) = Raise re_error)
    by (vm_compute; reflexivity).
  split; [by exists re_error|]. rewrite E. intros [res H]. discriminate H.
Qed.

(** C3 (amended): on a directory with at least one record, whatever the
    regular-expression engine, the method does not raise for a query
    the engine compiles: it returns a record or an absent result and
    leaves the object as it was; an error of the engine for the query is
    the only one the method raises.  With the engine of [re], every
    query free of metacharacters compiles. *)
Theorem get_country_info_returns
    (engine : Pandas.Engine) (q : string) (self : LanguageMapSDK) :
  country_data self <> [] ->
  ((exists test, engine q = Ok test) ->
   exists res : option CountryRecord,
     get_country_info_with engine q self = (Ok res, self))
  /\ (forall e,
        fst (get_country_info_with engine q self) = Raise e ->
        engine q = Raise e)
  /\ (Literal.plain q = true ->
      exists res : option CountryRecord,
        get_country_info q self = (Ok res, self)).
Proof.
  intros Hne. split; [|split].
  - intros [test Hc]. eexists. by apply get_country_info_with_test.
  - intros e. destruct (engine q) as [test|e'] eqn:Hc.
    + by rewrite (get_country_info_with_test engine q self test).
    + rewrite (get_country_info_with_raise engine q self e') by done.
      simpl. congruence.
  - intros Hq. eexists. by apply get_country_info_plain.
Qed.

Lemma get_country_info_returns_witness :
  country_data Sample.sdk <> []
  /\ (exists test, Pandas.re_engine "a(r|f)+.*a" = Ok test)
  /\ exists res,
       get_country_info_with Pandas.re_engine "a(r|f)+.*a" Sample.sdk
       = (Ok res, Sample.sdk).
Proof.
  assert (Hne : country_data Sample.sdk <> []) by discriminate.
  assert (Hc : exists test, Pandas.re_engine "a(r|f)+.*a" = Ok test)
    by (eexists; vm_compute; reflexivity).
  split; [exact Hne|]. split; [exact Hc|].
  exact (proj1 (get_country_info_returns Pandas.re_engine "a(r|f)+.*a"
                  Sample.sdk Hne) Hc).
Defined.

(** C6: on a directory with at least one record, the empty query returns
    the first record. *)
Theorem get_country_info_empty_query
    (self : LanguageMapSDK) (row : CountryRecord) (rest : DataFrame) :
  country_data self = row :: rest ->
  get_country_info "" self = (Ok (Some row), self).
Proof.
  intros E.
  rewrite (get_country_info_search "" self Re.Eps);
    [|by rewrite E|reflexivity].
  rewrite E. unfold first_match. simpl.
  by rewrite LiteralFacts.search_eps.
Qed.

Lemma get_country_info_empty_query_witness :
  country_data Sample.sdk = Sample.aruba :: [Sample.afghanistan]
  /\ get_country_info "" Sample.sdk = (Ok (Some Sample.aruba), Sample.sdk).
Proof.
  split; [reflexivity|].
  exact (get_country_info_empty_query Sample.sdk Sample.aruba
           [Sample.afghanistan] eq_refl).
Defined.

(** ** The marker and the map *)




(** C9: neither method changes the object: the directory is the same
    sequence of records after a call, and after any sequence of calls. *)
Theorem queries_leave_directory_unchanged
    (q : string) (self : LanguageMapSDK) (calls : list call) :
  country_data (snd (get_country_info q self)) = country_data self
  /\ country_data (snd (create_country_map q self)) = country_data self
  /\ country_data (after_calls calls self) = country_data self.
Proof.
  by rewrite get_country_info_frame, create_country_map_frame,
             after_calls_frame.
Qed.




(** ** The end-to-end scenario of the specification *)

Example pakistan_scenario :
  let self := __init__ Sample.urdu_only [Sample.pakistan_entry] in
  fst (get_country_info "pakistan" self) = Ok (Some Sample.pakistan)
  /\ markerFor Sample.pakistan
     = Ok (mkMarker [Sample.lat_pk; Sample.lon_pk]
             "Pakistan - Language: Urdu" (mkIcon "red"))
  /\ fst (get_country_info "Qxyzzy-not-a-country" self) = Ok None
  /\ fst (get_country_info "Madina" self) = Ok None.
Proof. vm_compute. repeat split. Qed.

(** * Further properties of the code *)

(** ** Loading: what is kept, what is dropped, in which order *)

Lemma entry_row_name (languages : gmap string string) country row :
  entry_row languages country = Some row -> name row = c_name country.
Proof.
  unfold entry_row. destruct (load_entry languages country) eqn:E; [|done].
  intros [= <-]. by apply (load_entry_name languages).
Qed.

(** X1: the names of the built directory are a subsequence of the names
    of the dataset: the load keeps the dataset's order, never repeats or
    invents an entry, and never has more rows than there are entries. *)
Theorem load_keeps_dataset_order
    (languages : gmap string string) (dataset : list Country) :
  map name (_load_country_data languages dataset)
    `sublist_of` map c_name dataset
  /\ length (_load_country_data languages dataset) <= length dataset.
Proof.
  induction dataset as [|country rest [IH1 IH2]].
  - split; [constructor | done].
  - rewrite load_cons.
    destruct (entry_row languages country) as [row|] eqn:E; simpl.
    + rewrite (entry_row_name languages country row E).
      split; [by apply sublist_skip | lia].
    + split; [by apply sublist_cons | lia].
Qed.

(** X2: an entry of the dataset has a row in the directory exactly when
    it has no language list, or the first code of its list is known to
    the language table. *)
Theorem entry_kept_iff
    (languages : gmap string string) (dataset : list Country)
    (country : Country) :
  country ∈ dataset ->
  (exists row,
     load_entry languages country = Ok row
     /\ row ∈ _load_country_data languages dataset)
  <-> (c_languages country = None
       \/ exists lang, resolved_language languages country = Some lang).
Proof.
  intros Hin.
  assert (Hrow : forall row,
             load_entry languages country = Ok row ->
             row ∈ _load_country_data languages dataset).
  { intros row E. rewrite load_omap. apply list_elem_of_omap.
    exists country. split; [done|]. unfold entry_row. by rewrite E. }
  destruct (c_languages country) as [ls|] eqn:El.
  - pose proof (entry_row_languages languages country ls El) as Hr.
    unfold entry_row in Hr. split.
    + intros (row & E & _). right. rewrite E in Hr.
      destruct (resolved_language languages country) as [lang|]; [eauto|done].
    + intros [?|[lang Hres]]; [done|]. rewrite Hres in Hr. simpl in Hr.
      destruct (load_entry languages country) as [row|e] eqn:E; [|done].
      exists row. split; [done | by apply Hrow].
  - pose proof (entry_row_no_languages languages country El) as Hr.
    unfold entry_row in Hr. split; [by left|]. intros _.
    destruct (load_entry languages country) as [row|e] eqn:E; [|done].
    exists row. split; [done | by apply Hrow].
Qed.

Lemma entry_kept_iff_witness :
  Sample.pakistan_entry ∈ [Sample.pakistan_entry; Sample.atlantis_entry]
  /\ ((exists row,
         load_entry Sample.urdu_only Sample.pakistan_entry = Ok row
         /\ row ∈ _load_country_data Sample.urdu_only
                   [Sample.pakistan_entry; Sample.atlantis_entry])
      <-> (c_languages Sample.pakistan_entry = None
           \/ exists lang,
                resolved_language Sample.urdu_only Sample.pakistan_entry
                = Some lang)).
Proof.
  assert (Hin : Sample.pakistan_entry
                ∈ [Sample.pakistan_entry; Sample.atlantis_entry])
    by apply list_elem_of_here.
  split; [exact Hin|].
  exact (entry_kept_iff Sample.urdu_only
           [Sample.pakistan_entry; Sample.atlantis_entry]
           Sample.pakistan_entry Hin).
Defined.

Lemma load_without_language_lists_aux
    (languages : gmap string string) (dataset : list Country) :
  Forall (fun country => c_languages country = None) dataset ->
  map name (_load_country_data languages dataset) = map c_name dataset
  /\ Forall (fun row => language row = "Unknown")
            (_load_country_data languages dataset).
Proof.
  intros Hnone.
  induction Hnone as [|country rest Hc _ [IH1 IH2]].
  - split; [done | constructor].
  - rewrite load_cons, (entry_row_no_languages languages country Hc). simpl.
    split; [by rewrite IH1 | by constructor].
Qed.

(** X3: if no entry of the dataset has a language list (the attribute
    [languages] is missing everywhere), nothing is dropped: the directory
    has one row per entry, in order, each with language ["Unknown"],
    whatever the language table holds. *)
Theorem load_without_language_lists
    (languages : gmap string string) (dataset : list Country) :
  Forall (fun country => c_languages country = None) dataset ->
  map name (_load_country_data languages dataset) = map c_name dataset
  /\ Forall (fun row => language row = "Unknown")
            (_load_country_data languages dataset).
Proof. apply load_without_language_lists_aux. Qed.

Lemma load_without_language_lists_witness :
  Forall (fun country => c_languages country = None)
         [Sample.aruba_entry; Sample.afghanistan_entry]
  /\ map name (_load_country_data Sample.urdu_only
                 [Sample.aruba_entry; Sample.afghanistan_entry])
     = ["Aruba"; "Afghanistan"]
  /\ Forall (fun row => language row = "Unknown")
            (_load_country_data Sample.urdu_only
               [Sample.aruba_entry; Sample.afghanistan_entry]).
Proof.
  assert (H : Forall (fun country => c_languages country = None)
                [Sample.aruba_entry; Sample.afghanistan_entry])
    by (repeat constructor).
  split; [exact H|].
  exact (load_without_language_lists Sample.urdu_only
           [Sample.aruba_entry; Sample.afghanistan_entry] H).
Defined.

(** ** The query, beyond literal queries *)

Section QueryMore.

Implicit Types (self : LanguageMapSDK) (df : DataFrame)
               (row : CountryRecord) (q : string).

(** If some row satisfies [p], the first match is that row or one
    before it. *)
Lemma first_match_at_or_before (p : string -> bool) df row :
  row ∈ df -> p (name row) = true ->
  exists row' before after,
    first_match p df = Some row'
    /\ df = before ++ row' :: after
    /\ row ∈ row' :: after
    /\ p (name row') = true.
Proof.
  intros Hin Hp. destruct (first_match p df) as [row'|] eqn:E.
  - destruct (first_match_some p df row' E) as (before & after & -> & Hp' & Hb).
    exists row', before, after. repeat split; try done.
    apply elem_of_app in Hin as [Hin|Hin]; [|done].
    rewrite Forall_forall in Hb. specialize (Hb row Hin). congruence.
  - apply first_match_none in E. rewrite Forall_forall in E.
    specialize (E row Hin). congruence.
Qed.

(** A returned record is a row of the directory. *)
Lemma get_country_info_elem q self row :
  fst (get_country_info q self) = Ok (Some row) -> row ∈ country_data self.
Proof.
  intros H. destruct (country_data self) as [|r0 df0] eqn:Ed.
  - by rewrite get_country_info_no_rows in H.
  - assert (Hne : country_data self <> []) by by rewrite Ed.
    destruct (Re.compile q) as [r|e] eqn:Ec.
    + rewrite (get_country_info_search q self r Hne Ec) in H. simpl in H.
      inversion H as [Hf].
      apply first_match_some in Hf as (before & after & E & _).
      rewrite <- Ed, E. apply elem_of_app. right. apply list_elem_of_here.
    + by rewrite (get_country_info_raise q self e Hne Ec) in H.
Qed.

Lemma is_substring_refl (l : list ascii) : Literal.is_substring l l = true.
Proof.
  apply LiteralFacts.is_substring_spec. exists [], []. by rewrite app_nil_r.
Qed.

Lemma is_substring_trans (a b c : list ascii) :
  Literal.is_substring a b = true -> Literal.is_substring b c = true ->
  Literal.is_substring a c = true.
Proof.
  rewrite !LiteralFacts.is_substring_spec.
  intros (p1 & s1 & ->) (p2 & s2 & ->).
  exists (p2 ++ p1), (s1 ++ s2). by rewrite <- !app_assoc.
Qed.

End QueryMore.

(** X4: whatever the query (literal or regular expression), a record
    returned by [get_country_info] is one of the rows of the directory. *)
Theorem lookup_returns_directory_row
    (q : string) (self : LanguageMapSDK) (row : CountryRecord) :
  fst (get_country_info q self) = Ok (Some row) ->
  row ∈ country_data self
  /\ exists before after, country_data self = before ++ row :: after.
Proof.
  intros H. pose proof (get_country_info_elem q self row H) as Hin.
  split; [done|]. by apply list_elem_of_split.
Qed.

Lemma lookup_returns_directory_row_witness :
  fst (get_country_info "a.g" Sample.sdk) = Ok (Some Sample.afghanistan)
  /\ Sample.afghanistan ∈ country_data Sample.sdk.
Proof.
  assert (H : fst (get_country_info "a.g" Sample.sdk)
              = Ok (Some Sample.afghanistan)) by (vm_compute; reflexivity).
  split; [exact H|].
  exact (proj1 (lookup_returns_directory_row "a.g" Sample.sdk
                  Sample.afghanistan H)).
Defined.

(** X5: the query is a pattern for the regular-expression engine.
    Whatever the engine, when it compiles the query to a test of one
    string and the directory has a row, [get_country_info] returns the
    first row, in directory order, whose name passes the test, and an
    absent result when no name does. *)
Theorem lookup_regex_semantics
    (engine : Pandas.Engine) (q : string) (test : string -> bool)
    (self : LanguageMapSDK) :
  country_data self <> [] ->
  engine q = Ok test ->
  match fst (get_country_info_with engine q self) with
  | Ok (Some row) =>
      exists before after,
        country_data self = before ++ row :: after
        /\ test (name row) = true
        /\ Forall (fun row' => test (name row') = false) before
  | Ok None => Forall (fun row' => test (name row') = false)
                      (country_data self)
  | Raise _ => False
  end.
Proof.
  intros Hne Hc.
  rewrite (get_country_info_with_test engine q self test Hne Hc). simpl.
  destruct (first_match _ _) as [row|] eqn:E.
  - by apply first_match_some.
  - by apply first_match_none.
Qed.

Lemma lookup_regex_semantics_witness :
  let test := fun x => Re.search (Re.Cat (Re.Alt (Re.Cat (Re.Lit "f") Re.Eps)
                                            (Re.Cat (Re.Lit "z") Re.Eps))
                                    (Re.Cat (Re.Lit "g") Re.Eps))
                         (list_ascii_of_string x) in
  country_data Sample.sdk <> []
  /\ Pandas.re_engine "(f|z)g" = Ok test
  /\ fst (get_country_info_with Pandas.re_engine "(f|z)g" Sample.sdk)
     = Ok (Some Sample.afghanistan)
  /\ exists before after,
       country_data Sample.sdk = before ++ Sample.afghanistan :: after
       /\ test (name Sample.afghanistan) = true
       /\ Forall (fun row' => test (name row') = false) before.
Proof.
  intros test.
  assert (Hne : country_data Sample.sdk <> []) by discriminate.
  assert (Hc : Pandas.re_engine "(f|z)g" = Ok test) by reflexivity.
  assert (E : fst (get_country_info_with Pandas.re_engine "(f|z)g"
                     Sample.sdk)
              = Ok (Some Sample.afghanistan)) by (vm_compute; reflexivity).
  pose proof (lookup_regex_semantics Pandas.re_engine "(f|z)g" test
                Sample.sdk Hne Hc) as H.
  rewrite E in H.
  split; [exact Hne|]. split; [exact Hc|]. split; [exact E | exact H].
Defined.

(** X6: the case of a query does not matter: two queries free of
    metacharacters that are equal once folded to lower case get the same
    answer from the same directory. *)
Theorem query_case_is_ignored (q1 q2 : string) (self : LanguageMapSDK) :
  Literal.plain q1 = true -> Literal.plain q2 = true ->
  map Re.lower (list_ascii_of_string q1)
  = map Re.lower (list_ascii_of_string q2) ->
  get_country_info q1 self = get_country_info q2 self.
Proof.
  intros H1 H2 E. destruct (country_data self) as [|r0 df0] eqn:Ed.
  - by rewrite !get_country_info_no_rows.
  - rewrite !get_country_info_plain by (done || by rewrite Ed).
    f_equal. f_equal. apply first_match_ext. intros x.
    unfold Literal.contains_ignore_case. by rewrite E.
Qed.

Lemma query_case_is_ignored_witness :
  Literal.plain "aRuBa" = true /\ Literal.plain "ARUBA" = true
  /\ get_country_info "aRuBa" Sample.sdk = get_country_info "ARUBA" Sample.sdk.
Proof.
  split; [reflexivity|]. split; [reflexivity|].
  exact (query_case_is_ignored "aRuBa" "ARUBA" Sample.sdk
           eq_refl eq_refl eq_refl).
Defined.

(** X7: in a directory whose names are ASCII strings, looking a row up
    by its own full name (free of metacharacters) always finds
    something, but not always that row: the answer is the first row
    whose name contains the name asked for, which is the row itself or
    one placed before it in the directory. *)
Theorem exact_name_lookup (self : LanguageMapSDK) (row : CountryRecord) :
  Forall (fun r => Literal.is_ascii (name r) = true) (country_data self) ->
  row ∈ country_data self ->
  Literal.plain (name row) = true ->
  exists row' before after,
    fst (get_country_info (name row) self) = Ok (Some row')
    /\ country_data self = before ++ row' :: after
    /\ row ∈ row' :: after
    /\ Literal.contains_ignore_case (name row) (name row') = true.
Proof.
  intros _ Hin Hq.
  assert (Hne : country_data self <> []).
  { intros E. rewrite E in Hin. by apply elem_of_nil in Hin. }
  rewrite (get_country_info_plain _ _ Hne Hq). simpl.
  destruct (first_match_at_or_before
              (Literal.contains_ignore_case (name row))
              (country_data self) row Hin (is_substring_refl _))
    as (row' & before & after & E & Hd & Hr & Hp).
  exists row', before, after. by rewrite E.
Qed.

(** Nigeria placed before Niger answers for Niger. *)
Lemma exact_name_lookup_witness :
  let nigeria := mkRecord "Nigeria" "Nigeria" (PyInt 0) (PyInt 0) "Unknown" in
  let niger := mkRecord "Niger" "Niger" (PyInt 0) (PyInt 0) "Unknown" in
  Forall (fun r => Literal.is_ascii (name r) = true) [nigeria; niger]
  /\ niger ∈ [nigeria; niger]
  /\ Literal.plain (name niger) = true
  /\ fst (get_country_info (name niger) (mkSDK [nigeria; niger]))
     = Ok (Some nigeria)
  /\ exists row' before after,
       fst (get_country_info (name niger) (mkSDK [nigeria; niger]))
       = Ok (Some row')
       /\ [nigeria; niger] = before ++ row' :: after
       /\ niger ∈ row' :: after
       /\ Literal.contains_ignore_case (name niger) (name row') = true.
Proof.
  intros nigeria niger.
  assert (Hin : niger ∈ country_data (mkSDK [nigeria; niger]))
    by (apply list_elem_of_further, list_elem_of_here).
  assert (Hn : Forall (fun r => Literal.is_ascii (name r) = true)
                 (country_data (mkSDK [nigeria; niger])))
    by (apply Forall_forall; intros r Hr;
        repeat (apply elem_of_cons in Hr as [->|Hr]);
        [reflexivity..|by apply elem_of_nil in Hr]).
  split; [exact Hn|]. split; [exact Hin|]. split; [reflexivity|].
  split; [vm_compute; reflexivity|].
  exact (exact_name_lookup (mkSDK [nigeria; niger]) niger Hn Hin eq_refl).
Defined.

(** X8: shortening a query never loses the match: if a query free of
    metacharacters finds a row, any query free of metacharacters that is
    contained in it (case ignored) finds that row or one before it. *)
Theorem shorter_query_still_matches
    (q q' : string) (self : LanguageMapSDK) (row : CountryRecord) :
  Literal.plain q = true -> Literal.plain q' = true ->
  Literal.contains_ignore_case q' q = true ->
  fst (get_country_info q self) = Ok (Some row) ->
  exists row' before after,
    fst (get_country_info q' self) = Ok (Some row')
    /\ country_data self = before ++ row' :: after
    /\ row ∈ row' :: after.
Proof.
  intros Hq Hq' Hsub Hfound.
  pose proof (get_country_info_elem q self row Hfound) as Hin.
  assert (Hne : country_data self <> []).
  { intros E. rewrite E in Hin. by apply elem_of_nil in Hin. }
  rewrite (get_country_info_plain _ _ Hne Hq) in Hfound. simpl in Hfound.
  inversion Hfound as [Hf].
  apply first_match_some in Hf as (_ & _ & _ & Hp & _).
  rewrite (get_country_info_plain _ _ Hne Hq'). simpl.
  destruct (first_match_at_or_before
              (Literal.contains_ignore_case q') (country_data self) row Hin)
    as (row' & before & after & E & Hd & Hr & _).
  { unfold Literal.contains_ignore_case in *.
    by eapply is_substring_trans. }
  exists row', before, after. by rewrite E.
Qed.

Lemma shorter_query_still_matches_witness :
  Literal.plain "afghan" = true /\ Literal.plain "GHA" = true
  /\ Literal.contains_ignore_case "GHA" "afghan" = true
  /\ fst (get_country_info "afghan" Sample.sdk) = Ok (Some Sample.afghanistan)
  /\ exists row' before after,
       fst (get_country_info "GHA" Sample.sdk) = Ok (Some row')
       /\ country_data Sample.sdk = before ++ row' :: after
       /\ Sample.afghanistan ∈ row' :: after.
Proof.
  assert (H : fst (get_country_info "afghan" Sample.sdk)
              = Ok (Some Sample.afghanistan)) by (vm_compute; reflexivity).
  split; [reflexivity|]. split; [reflexivity|]. split; [reflexivity|].
  split; [exact H|].
  exact (shorter_query_still_matches "afghan" "GHA" Sample.sdk
           Sample.afghanistan eq_refl eq_refl eq_refl H).
Defined.

(** ** Queries that are not literal *)

(** X9: a query that begins with [*], [+] or [?] is not a valid regular
    expression (there is nothing to repeat): on a directory with a row,
    [get_country_info] raises the error of the engine, whatever follows
    the first character, and leaves the object as it was. *)
Theorem quantifier_first_query_raises
    (c : ascii) (rest : string) (self : LanguageMapSDK) :
  country_data self <> [] ->
  Re.is_quantifier c = true ->
  exists e, get_country_info (String c rest) self = (Raise e, self).
Proof.
  intros Hne Hq. exists re_error. apply get_country_info_raise; [done|].
  unfold Re.is_quantifier in Hq.
  apply orb_true_iff in Hq as [Hq|Hq];
    [apply orb_true_iff in Hq as [Hq|Hq]|];
    apply Ascii.eqb_eq in Hq; subst c; reflexivity.
Qed.

Lemma quantifier_first_query_raises_witness :
  country_data Sample.sdk <> []
  /\ Re.is_quantifier "?" = true
  /\ exists e, get_country_info "?stan" Sample.sdk = (Raise e, Sample.sdk).
Proof.
  assert (Hne : country_data Sample.sdk <> []) by discriminate.
  split; [exact Hne|]. split; [reflexivity|].
  exact (quantifier_first_query_raises "?" "stan" Sample.sdk Hne eq_refl).
Defined.

Section Groups.

Import Re Literal.

Lemma list_ascii_of_string_app (s1 s2 : string) :
  list_ascii_of_string (s1 ++ s2)
  = list_ascii_of_string s1 ++ list_ascii_of_string s2.
Proof. induction s1 as [|c s1 IH]; simpl; [done | by rewrite IH]. Qed.

Lemma plain_app (s1 s2 : string) :
  plain s1 = true -> plain s2 = true -> plain (s1 ++ s2) = true.
Proof.
  unfold plain. rewrite list_ascii_of_string_app, forallb_app.
  by intros -> ->.
Qed.

(** A stretch of ordinary characters is pushed onto the current branch. *)
Lemma parse_plain_app (p rest : string) cur stack :
  plain p = true ->
  parse (p ++ rest) cur stack
  = parse rest
      (mkFrame (branches cur)
         (rev (map (fun c => (Lit c, Plain)) (list_ascii_of_string p))
          ++ items cur)) stack.
Proof.
  unfold plain. revert cur.
  induction p as [|c p IH]; intros cur H.
  - by destruct cur.
  - simpl in H. apply andb_true_iff in H as [Hc Hp].
    apply negb_true_iff in Hc.
    change (String c p ++ rest)%string with (String c (p ++ rest)).
    rewrite LiteralFacts.parse_literal_char, IH by done.
    simpl. by rewrite <- app_assoc.
Qed.

(** An opening parenthesis followed by ordinary text, or by a closing
    parenthesis, opens a group. *)
Lemma parse_open_group (b rest : string) cur stack :
  plain b = true ->
  parse (String "(" (b ++ String ")" rest)) cur stack
  = parse (b ++ String ")" rest) empty_frame (cur :: stack).
Proof.
  intros Hb. destruct b as [|c b]; [done|].
  unfold plain in Hb. simpl in Hb. apply andb_true_iff in Hb as [Hc _].
  apply negb_true_iff in Hc.
  change (String c b ++ String ")" rest)%string
    with (String c (b ++ String ")" rest)).
  cbn [parse]. change (Ascii.eqb "(" "(") with true. cbv iota.
  destruct (Ascii.eqb_spec c "?") as [->|Hne]; [discriminate Hc|].
  destruct c as [[] [] [] [] [] [] [] []]; try reflexivity.
  by destruct Hne.
Qed.

Lemma fold_left_rev_literal (q : list ascii) (acc : regex) :
  fold_left (fun acc it => Cat (fst it) acc)
            (rev (map (fun c => (Lit c, Plain)) q)) acc
  = fold_right (fun c r => Cat (Lit c) r) acc q.
Proof.
  induction q as [|c q IH]; simpl; [done|].
  by rewrite fold_left_app, IH.
Qed.

Lemma matches_literal_onto (q : list ascii) (acc : regex) s :
  Matches (fold_right (fun c r => Cat (Lit c) r) acc q) s
  <-> exists s1 s2,
        s = s1 ++ s2 /\ map lower s1 = map lower q /\ Matches acc s2.
Proof.
  revert s. induction q as [|c q IH]; intros s; simpl.
  - split.
    + intros H. by exists [], s.
    + intros (s1 & s2 & -> & E & H). by destruct s1.
  - split.
    + intros H. inversion H as [| | |? ? s1 s2 H1 H2| | | |]; subst.
      inversion H1; subst.
      apply IH in H2 as (t1 & t2 & -> & E & H2).
      exists (ch :: t1), t2. simpl. repeat split; [|done].
      f_equal; [by apply LiteralFacts.lit_matches_lower | done].
    + intros (s1 & s2 & -> & E & H). destruct s1 as [|ch s1]; [done|].
      simpl in E. inversion E.
      change ((ch :: s1) ++ s2) with ([ch] ++ (s1 ++ s2)). constructor.
      * constructor. by apply LiteralFacts.lit_matches_lower.
      * apply IH. by exists s1, s2.
Qed.

Lemma search_ext (r1 r2 : regex) s :
  (forall t, Matches r1 t <-> Matches r2 t) -> search r1 s = search r2 s.
Proof.
  intros H. apply eq_true_iff_eq. rewrite !ReFacts.search_spec.
  split; intros (pre & mid & post & E & Hm); exists pre, mid, post;
    (split; [done | by apply H]).
Qed.

(** The query [a(b)c], with [a], [b], [c] free of metacharacters,
    compiles to a pattern that spells [abc]. *)
Lemma compile_group (a b c : string) :
  plain a = true -> plain b = true -> plain c = true ->
  exists r,
    compile (a ++ String "(" (b ++ String ")" c)) = Ok r
    /\ forall t, Matches r t
                 <-> Matches (literal (list_ascii_of_string (a ++ b ++ c))) t.
Proof.
  intros Ha Hb Hc. unfold compile.
  rewrite (parse_plain_app a) by done.
  rewrite parse_open_group by done.
  rewrite (parse_plain_app b) by done.
  cbn [parse]. change (Ascii.eqb ")" "(") with false.
  change (Ascii.eqb ")" ")") with true. cbv iota.
  rewrite LiteralFacts.parse_plain by done.
  eexists. split; [reflexivity|]. intros t.
  unfold close, push, empty_frame. simpl.
  rewrite !app_nil_r. unfold seq_regex.
  rewrite fold_left_app. simpl.
  rewrite !fold_left_rev_literal.
  rewrite LiteralFacts.matches_literal, matches_literal_onto.
  rewrite !list_ascii_of_string_app, !map_app. split.
  - intros (s1 & s2 & -> & E1 & H).
    inversion H as [| | |? ? t1 t2 H1 H2| | | |]; subst.
    apply (LiteralFacts.matches_literal (list_ascii_of_string b)) in H1.
    apply (LiteralFacts.matches_literal (list_ascii_of_string c)) in H2.
    by rewrite !map_app, E1, H1, H2.
  - intros E. apply map_eq_app in E as (s1 & s23 & -> & E1 & E).
    apply map_eq_app in E as (s2 & s3 & -> & E2 & E3).
    exists s1, (s2 ++ s3). repeat split; [done|].
    constructor; by apply LiteralFacts.matches_literal.
Qed.

End Groups.

(** X10: parentheses in a query are grouping marks, not characters.
    For ASCII strings [a], [b], [c] free of metacharacters and a
    directory of ASCII names, the query [a(b)c] gets the answer of the
    query [abc]: the first row whose name contains [abc], case ignored.
    (So a name that itself has parentheses is not found by typing it in
    full.) *)
Theorem parentheses_are_dropped (a b c : string) (self : LanguageMapSDK) :
  Literal.plain a = true -> Literal.plain b = true ->
  Literal.plain c = true ->
  Literal.is_ascii (a ++ b ++ c) = true ->
  Forall (fun r => Literal.is_ascii (name r) = true) (country_data self) ->
  country_data self <> [] ->
  get_country_info (a ++ String "(" (b ++ String ")" c)) self
  = (Ok (first_match (Literal.contains_ignore_case (a ++ b ++ c))
           (country_data self)), self)
  /\ get_country_info (a ++ String "(" (b ++ String ")" c)) self
     = get_country_info (a ++ b ++ c) self.
Proof.
  intros Ha Hb Hc _ _ Hne.
  destruct (compile_group a b c Ha Hb Hc) as (r & Hr & Hm).
  assert (E : get_country_info (a ++ String "(" (b ++ String ")" c)) self
              = (Ok (first_match (Literal.contains_ignore_case (a ++ b ++ c))
                       (country_data self)), self)).
  { rewrite (get_country_info_search _ self r Hne Hr).
    f_equal. f_equal. apply first_match_ext. intros x.
    rewrite (search_ext _ _ _ Hm). apply LiteralFacts.search_plain. }
  split; [exact E|].
  rewrite E. symmetry. apply get_country_info_plain; [done|].
  by repeat apply plain_app.
Qed.

Lemma parentheses_are_dropped_witness :
  let cocos := mkRecord "Cocos (Keeling) Islands" "Cocos (Keeling) Islands"
                        (PyInt 0) (PyInt 0) "Unknown" in
  Literal.plain "Cocos " = true /\ Literal.plain "Keeling" = true
  /\ Literal.plain " Islands" = true
  /\ Literal.is_ascii ("Cocos " ++ "Keeling" ++ " Islands") = true
  /\ Forall (fun r => Literal.is_ascii (name r) = true)
            (country_data (mkSDK [cocos]))
  /\ country_data (mkSDK [cocos]) <> []
  /\ get_country_info "Cocos (Keeling) Islands" (mkSDK [cocos])
     = (Ok None, mkSDK [cocos]).
Proof.
  intros cocos.
  assert (Hne : country_data (mkSDK [cocos]) <> []) by discriminate.
  assert (Hn : Forall (fun r => Literal.is_ascii (name r) = true)
                 (country_data (mkSDK [cocos])))
    by (apply Forall_forall; intros r Hr;
        apply list_elem_of_singleton in Hr; by subst r).
  split; [reflexivity|]. split; [reflexivity|]. split; [reflexivity|].
  split; [reflexivity|]. split; [exact Hn|]. split; [exact Hne|].
  exact (proj1 (parentheses_are_dropped "Cocos " "Keeling" " Islands"
                  (mkSDK [cocos]) eq_refl eq_refl eq_refl eq_refl Hn Hne)).
Defined.

(** ** The page *)

Section PageFacts.

Import App.

Variable languages : gmap string string.
Variable dataset : list Country.
Variable final_output : Agent -> string -> result string.

(** The first column, case by case. *)
Lemma col1_eval (s : Session) (w : World) :
  col1 final_output s w
  = let shown := [Render Col1 (st_subheader "Find a Location");
                  Render Col1 (st_text_input
                                 "Enter a country or city (e.g., 'Madina'):")] in
    if truthy (country_input s) then
      match fst (get_country_info (country_input s) (sdk w)) with
      | Ok (Some row) =>
          let asked :=
            shown ++ [Render Col1 (st_success ("Found: " ++ name row));
                      Runner_run_sync language_agent (location_prompt row)] in
          match final_output language_agent (location_prompt row) with
          | Ok answer =>
              let titled :=
                asked ++ [Render Col1 (st_write answer);
                          Render Col1 (st_subheader ("Map of " ++ name row))] in
              match validate_location [latitude row; longitude row] with
              | Ok loc =>
                  (Next (Some row),
                   mkWorld (sdk w)
                     (page w ++ titled
                      ++ [Render Col1
                            (folium_static
                               (mkMap loc 6
                                  [mkMarker loc (popup_text row)
                                            (mkIcon "red")]))]))
              | Raise e => (Uncaught e, mkWorld (sdk w) (page w ++ titled))
              end
          | Raise e => (Uncaught e, mkWorld (sdk w) (page w ++ asked))
          end
      | Ok None =>
          (Next None,
           mkWorld (sdk w)
             (page w ++ shown
              ++ [Render Col1
                    (st_warning "Location not found. Try a different name.")]))
      | Raise e => (Uncaught e, mkWorld (sdk w) (page w ++ shown))
      end
    else (Next None, mkWorld (sdk w) (page w ++ shown)).
Proof.
  destruct w as [self pg]. unfold col1, mbind, script_bind, render, call,
    run_sync, mret, script_ret. simpl.
  destruct (truthy (country_input s)); [|by rewrite <- !app_assoc].
  pose proof (get_country_info_frame (country_input s) self) as Hf.
  destruct (get_country_info (country_input s) self) as [R self'] eqn:E.
  simpl in Hf. subst self'. simpl. rewrite ?E.
  destruct R as [[row|]|e]; simpl; try by rewrite <- !app_assoc.
  destruct (final_output language_agent (location_prompt row)) as [answer|e];
    simpl; [|by rewrite <- !app_assoc].
  rewrite create_country_map_unfold, E. simpl.
  destruct (validate_location [latitude row; longitude row]) as [loc|e];
    simpl; by rewrite <- !app_assoc.
Qed.

(** Case analysis on every test a run of the page makes. *)
Ltac page_cases :=
  repeat match goal with
         | |- context [match ?x with _ => _ end] =>
             lazymatch x with
             | context [match _ with _ => _ end] => fail
             | _ => destruct x eqn:?; simpl
             end
         | |- context [if ?x then _ else _] =>
             lazymatch x with
             | context [match _ with _ => _ end] => fail
             | _ => destruct x eqn:?; simpl
             end
         end.

(** A run with the key set, up to the end of the first column. *)
Ltac enter_page K :=
  unfold app; rewrite K; simpl;
  unfold body, mbind, script_bind, mret, script_ret, render; simpl;
  rewrite K; simpl; rewrite col1_eval; cbv zeta; simpl.

Ltac run_page K :=
  enter_page K;
  unfold col2, ask_expert, mbind, script_bind, mret, script_ret, render,
    run_sync;
  page_cases.

Ltac in_page H :=
  repeat (apply elem_of_cons in H as [H|H]);
  try (by apply elem_of_nil in H).

Lemma selectbox_value_option (row : CountryRecord) (picked : option nat) :
  selectbox_value target_languages (default_index row) picked
    ∈ target_languages.
Proof.
  unfold selectbox_value, default_index, target_languages.
  destruct (String.eqb (language row) "Arabic");
    destruct picked as [i|]; simpl;
    try (do 7 (destruct i as [|i]; simpl; [set_solver|]));
    set_solver.
Qed.

Lemma truthy_non_empty (x : string) : truthy x = true -> x <> "".
Proof. by destruct x. Qed.

(** X11: the sidebar field asking for the key (line 98) is never
    rendered, in any run; when the key is missing or empty, the run
    stops after the error message: nothing else is rendered and no agent
    is called. *)
Theorem missing_key_stops_run (s : Session) :
  (Render Sidebar (st_text_input "Gemini API Key")
     ∉ snd (app languages dataset final_output s))
  /\ (truthy_env (GEMINI_API_KEY s) = false ->
      app languages dataset final_output s
      = (Stop,
         [Render Main
            (st_error "GEMINI_API_KEY is not set. Please ensure it is defined in your .env file.")])).
Proof.
  destruct (truthy_env (GEMINI_API_KEY s)) eqn:K.
  - split; [|done]. run_page K; intros H; in_page H; discriminate H.
  - unfold app. rewrite K. simpl. split; [|done].
    intros H. apply list_elem_of_singleton in H. discriminate H.
Qed.

(** X12: when the key is set, the lookup finds a row, the language
    agent answers and folium accepts the row's coordinates, the page
    shows ["Found: <name>"], the answer and the map: a map centred on
    the location folium keeps for the row, with the row's marker.  (The
    second lookup, made inside [create_country_map], cannot disagree
    with the first.) *)
Theorem found_country_shows_map
    (s : Session) (row : CountryRecord) (answer : string)
    (loc : list num) :
  truthy_env (GEMINI_API_KEY s) = true ->
  truthy (country_input s) = true ->
  fst (get_country_info (country_input s) (__init__ languages dataset))
  = Ok (Some row) ->
  final_output language_agent (location_prompt row) = Ok answer ->
  validate_location [latitude row; longitude row] = Ok loc ->
  exists rest,
    snd (app languages dataset final_output s)
    = [Render Main
         (st_title "🌍 World Language Translator with Map (Gemini)");
       Render Sidebar (st_header "Settings");
       Render Col1 (st_subheader "Find a Location");
       Render Col1
         (st_text_input "Enter a country or city (e.g., 'Madina'):");
       Render Col1 (st_success ("Found: " ++ name row));
       Runner_run_sync language_agent (location_prompt row);
       Render Col1 (st_write answer);
       Render Col1 (st_subheader ("Map of " ++ name row));
       Render Col1
         (folium_static
            (mkMap loc 6
               [mkMarker loc
                  (name row ++ " - Language: " ++ language row)
                  (mkIcon "red")]));
       Render Col2 (st_subheader "Language Translation")] ++ rest.
Proof.
  intros K Ht Hr Ha Hl. enter_page K. rewrite Ht, Hr, Ha, Hl. simpl.
  unfold col2, ask_expert, mbind, script_bind, mret, script_ret, render,
    run_sync.
  page_cases; eexists; reflexivity.
Qed.

(** X13: an exception raised by the lookup (an invalid regular
    expression typed as the country, or a directory without rows) ends
    the run on the spot: the page stops after the country field, the
    translation column and the expert section are not rendered, and the
    question typed for the expert is sent to no agent. *)
Theorem failed_lookup_aborts_run (s : Session) (e : exn) :
  truthy_env (GEMINI_API_KEY s) = true ->
  truthy (country_input s) = true ->
  fst (get_country_info (country_input s) (__init__ languages dataset))
  = Raise e ->
  app languages dataset final_output s
  = (Uncaught e,
     [Render Main
        (st_title "🌍 World Language Translator with Map (Gemini)");
      Render Sidebar (st_header "Settings");
      Render Col1 (st_subheader "Find a Location");
      Render Col1
        (st_text_input "Enter a country or city (e.g., 'Madina'):")])
  /\ requests (snd (app languages dataset final_output s)) = [].
Proof.
  intros K Ht Hr.
  assert (E : app languages dataset final_output s
              = (Uncaught e,
                 [Render Main
                    (st_title "🌍 World Language Translator with Map (Gemini)");
                  Render Sidebar (st_header "Settings");
                  Render Col1 (st_subheader "Find a Location");
                  Render Col1
                    (st_text_input
                       "Enter a country or city (e.g., 'Madina'):")])).
  { enter_page K. by rewrite Ht, Hr. }
  split; [exact E|]. by rewrite E.
Qed.

Lemma requests_at_most_three (s : Session) :
  length (requests (snd (app languages dataset final_output s))) <= 3.
Proof.
  destruct (truthy_env (GEMINI_API_KEY s)) eqn:K.
  2: { unfold app. rewrite K. simpl. lia. }
  run_page K; lia.
Qed.

(** X14: a run sends at most three requests, and each is one of: the
    question about the country found, to the language agent; the text to
    translate, to the translator, only after a click on Translate with a
    non-empty text and with one of the seven listed languages as target;
    the expert question, unchanged, to the agent picked for it. *)
Theorem requests_of_a_run (s : Session) :
  length (requests (snd (app languages dataset final_output s))) <= 3
  /\ forall a input,
       (a, input) ∈ requests (snd (app languages dataset final_output s)) ->
       (a = language_agent
        /\ exists row,
             fst (get_country_info (country_input s)
                    (__init__ languages dataset)) = Ok (Some row)
             /\ input = location_prompt row)
       \/ (a = translator_agent
           /\ Translate_clicked s = true
           /\ text_to_translate s <> ""
           /\ exists lang,
                lang ∈ target_languages
                /\ input = translation_prompt lang (text_to_translate s))
       \/ (a = expert_agent (user_question s)
           /\ input = user_question s
           /\ user_question s <> "").
Proof.
  split; [apply requests_at_most_three|]. intros a input.
  destruct (truthy_env (GEMINI_API_KEY s)) eqn:K.
  2: { unfold app. rewrite K. simpl. intros H. by apply elem_of_nil in H. }
  run_page K; intros H; in_page H; inversion H; subst.
  all: try (left; split; [done|]; eauto; fail).
  all: try (right; right; repeat split; try done; by apply truthy_non_empty).
  all: right; left; repeat split; try done; try (by apply truthy_non_empty).
  all: eexists; split; [apply selectbox_value_option | done].
Qed.

(** X15: the expert question goes to the language agent exactly when
    its lower-case form contains the word ["language"], and to the
    translator otherwise. *)
Theorem expert_routing (question : string) :
  (expert_agent question = language_agent
   <-> exists pre post,
         map Re.lower (list_ascii_of_string question)
         = pre ++ list_ascii_of_string "language" ++ post)
  /\ (expert_agent question = translator_agent
      <-> ~ exists pre post,
              map Re.lower (list_ascii_of_string question)
              = pre ++ list_ascii_of_string "language" ++ post).
Proof.
  assert (Hs : mentions_language question = true
               <-> exists pre post,
                     map Re.lower (list_ascii_of_string question)
                     = pre ++ list_ascii_of_string "language" ++ post)
    by apply LiteralFacts.is_substring_spec.
  unfold expert_agent. destruct (mentions_language question).
  - split; split; try done.
    + intros _. by apply Hs.
    + intros Hn. destruct Hn. by apply Hs.
  - split; split; try done.
    + intros H. apply Hs in H. discriminate H.
    + intros _ H. apply Hs in H. discriminate H.
Qed.

(** A row found in a directory loaded without language lists. *)
Lemma found_row_default_index (q : string) (row : CountryRecord) :
  Forall (fun country => c_languages country = None) dataset ->
  fst (get_country_info q (__init__ languages dataset)) = Ok (Some row) ->
  default_index row = 1.
Proof.
  intros Hnone Hr. apply get_country_info_elem in Hr.
  unfold __init__ in Hr. simpl in Hr.
  apply pd_DataFrame_elem in Hr as (r & Hr & ->).
  destruct (load_without_language_lists_aux languages dataset Hnone)
    as [_ Hl].
  rewrite Forall_forall in Hl. unfold default_index. simpl.
  by rewrite (Hl r Hr).
Qed.

(** X16: if no entry of the dataset has a language list (as with the
    countries of pycountry, which have no [languages] attribute), the
    selectbox is never rendered with ["Arabic"] preselected: whenever it
    is rendered, its index is 1, the option ["English"]. *)
Theorem default_target_is_english (s : Session) (index : nat) :
  Forall (fun country => c_languages country = None) dataset ->
  Render Col2 (st_selectbox "Translate to:" target_languages index)
    ∈ snd (app languages dataset final_output s) ->
  index = 1 /\ nth index target_languages "" = "English".
Proof.
  intros Hnone Hin. enough (index = 1) as -> by done. revert Hin.
  destruct (truthy_env (GEMINI_API_KEY s)) eqn:K.
  2: { unfold app. rewrite K. simpl. intros H.
       apply list_elem_of_singleton in H. discriminate H. }
  run_page K; intros H; in_page H; inversion H; subst.
  all: match goal with
       | Hr : fst (get_country_info _ _) = Ok (Some ?c) |- _ =>
           apply (found_row_default_index _ c Hnone Hr)
       end.
Qed.

(** X17: the translation widgets (here the Translate button) are
    rendered exactly when the key is set, a country was typed and found,
    the language agent answered the question about it, and folium
    accepted the coordinates of the row for the map. *)
Theorem translation_offered_iff_found (s : Session) :
  Render Col2 (st_button "Translate")
    ∈ snd (app languages dataset final_output s)
  <-> truthy_env (GEMINI_API_KEY s) = true
      /\ truthy (country_input s) = true
      /\ exists row answer loc,
           fst (get_country_info (country_input s)
                  (__init__ languages dataset)) = Ok (Some row)
           /\ final_output language_agent (location_prompt row) = Ok answer
           /\ validate_location [latitude row; longitude row] = Ok loc.
Proof.
  destruct (truthy_env (GEMINI_API_KEY s)) eqn:K.
  2: { unfold app. rewrite K. simpl. split.
       - intros H. apply list_elem_of_singleton in H. discriminate.
       - by intros [? _]. }
  run_page K;
    (split; [intros H|intros (_ & Ht & row & answer & loc & Hr & Ha & Hl)]).
  all: try (split; [done|split; [done|]]; eexists _, _, _;
            split; [reflexivity|split; eassumption]).
  all: try (in_page H; discriminate H).
  all: try congruence.
  all: try (rewrite !elem_of_cons; tauto).
Qed.

End PageFacts.

Lemma missing_key_stops_run_witness :
  App.truthy_env
    (App.GEMINI_API_KEY (App.mkSession None "" "aruba" None "" false "hi"))
  = false
  /\ App.app Sample.urdu_only [Sample.aruba_entry] AppSample.echo
       (App.mkSession None "" "aruba" None "" false "hi")
     = (App.Stop,
        [App.Render App.Main
           (App.st_error "GEMINI_API_KEY is not set. Please ensure it is defined in your .env file.")]).
Proof.
  split; [reflexivity|].
  exact (proj2 (missing_key_stops_run Sample.urdu_only [Sample.aruba_entry]
                  AppSample.echo
                  (App.mkSession None "" "aruba" None "" false "hi"))
           eq_refl).
Defined.

Lemma found_country_shows_map_witness :
  let s := AppSample.session "pak" "" in
  let dataset := [Sample.pakistan_entry] in
  let answer :=
    "[Language Identification Agent] What language is primarily spoken in Pakistan? Also provide 1-2 interesting facts about language use there." in
  App.truthy_env (App.GEMINI_API_KEY s) = true
  /\ App.truthy (App.country_input s) = true
  /\ fst (get_country_info (App.country_input s)
            (__init__ Sample.urdu_only dataset)) = Ok (Some Sample.pakistan)
  /\ AppSample.echo App.language_agent (App.location_prompt Sample.pakistan)
     = Ok answer
  /\ validate_location [latitude Sample.pakistan; longitude Sample.pakistan]
     = Ok Sample.loc_pk
  /\ App.Render App.Col1
       (App.folium_static
          (mkMap Sample.loc_pk 6
             [mkMarker Sample.loc_pk "Pakistan - Language: Urdu"
                       (mkIcon "red")]))
     ∈ snd (App.app Sample.urdu_only dataset AppSample.echo s).
Proof.
  intros s dataset answer.
  assert (Hl : validate_location
                 [latitude Sample.pakistan; longitude Sample.pakistan]
               = Ok Sample.loc_pk) by reflexivity.
  assert (Hr : fst (get_country_info (App.country_input s)
                      (__init__ Sample.urdu_only dataset))
               = Ok (Some Sample.pakistan)) by (vm_compute; reflexivity).
  assert (Ha : AppSample.echo App.language_agent
                 (App.location_prompt Sample.pakistan) = Ok answer)
    by reflexivity.
  split; [reflexivity|]. split; [reflexivity|]. split; [exact Hr|].
  split; [exact Ha|]. split; [exact Hl|].
  destruct (found_country_shows_map Sample.urdu_only dataset AppSample.echo
              s Sample.pakistan answer Sample.loc_pk eq_refl eq_refl Hr Ha
              Hl) as [rest E].
  rewrite E. apply elem_of_app. left.
  repeat first [apply list_elem_of_here | apply list_elem_of_further].
Defined.

Lemma failed_lookup_aborts_run_witness :
  let s := AppSample.session "(" "Which language is spoken there?" in
  App.truthy_env (App.GEMINI_API_KEY s) = true
  /\ App.truthy (App.country_input s) = true
  /\ fst (get_country_info (App.country_input s)
            (__init__ Sample.urdu_only [Sample.aruba_entry])) = Raise re_error
  /\ fst (App.app Sample.urdu_only [Sample.aruba_entry] AppSample.echo s)
     = App.Uncaught re_error
  /\ App.requests
       (snd (App.app Sample.urdu_only [Sample.aruba_entry] AppSample.echo s))
     = [].
Proof.
  intros s.
  assert (Hr : fst (get_country_info (App.country_input s)
                      (__init__ Sample.urdu_only [Sample.aruba_entry]))
               = Raise re_error) by (vm_compute; reflexivity).
  destruct (failed_lookup_aborts_run Sample.urdu_only [Sample.aruba_entry]
              AppSample.echo s re_error eq_refl eq_refl Hr) as [E Hq].
  split; [reflexivity|]. split; [reflexivity|]. split; [exact Hr|].
  split; [by rewrite E | exact Hq].
Defined.

Lemma requests_of_a_run_witness :
  let s := AppSample.translating "aruba" "Good morning" in
  let dataset := [Sample.aruba_entry] in
  let a := App.translator_agent in
  let input := App.translation_prompt "English" "Good morning" in
  (a, input)
    ∈ App.requests (snd (App.app Sample.urdu_only dataset AppSample.echo s))
  /\ ((a = App.language_agent
       /\ exists row,
            fst (get_country_info (App.country_input s)
                   (__init__ Sample.urdu_only dataset)) = Ok (Some row)
            /\ input = App.location_prompt row)
      \/ (a = App.translator_agent
          /\ App.Translate_clicked s = true
          /\ App.text_to_translate s <> ""
          /\ exists lang,
               lang ∈ App.target_languages
               /\ input
                  = App.translation_prompt lang (App.text_to_translate s))
      \/ (a = App.expert_agent (App.user_question s)
          /\ input = App.user_question s
          /\ App.user_question s <> "")).
Proof.
  intros s dataset a input.
  assert (Hin : (a, input)
                ∈ App.requests
                    (snd (App.app Sample.urdu_only dataset AppSample.echo s))).
  { vm_compute.
    repeat first [apply list_elem_of_here | apply list_elem_of_further]. }
  split; [exact Hin|].
  exact (proj2 (requests_of_a_run Sample.urdu_only dataset AppSample.echo s)
           a input Hin).
Defined.

Lemma default_target_is_english_witness :
  let s := AppSample.session "aru" "" in
  let dataset := [Sample.aruba_entry; Sample.afghanistan_entry] in
  Forall (fun country => c_languages country = None) dataset
  /\ App.Render App.Col2
       (App.st_selectbox "Translate to:" App.target_languages 1)
     ∈ snd (App.app Sample.urdu_only dataset AppSample.echo s)
  /\ nth 1 App.target_languages "" = "English".
Proof.
  intros s dataset.
  assert (Hnone : Forall (fun country => c_languages country = None) dataset)
    by (repeat constructor).
  assert (Hin : App.Render App.Col2
                  (App.st_selectbox "Translate to:" App.target_languages 1)
                ∈ snd (App.app Sample.urdu_only dataset AppSample.echo s)).
  { vm_compute.
    repeat first [apply list_elem_of_here | apply list_elem_of_further]. }
  split; [exact Hnone|]. split; [exact Hin|].
  exact (proj2 (default_target_is_english Sample.urdu_only dataset
                  AppSample.echo s 1 Hnone Hin)).
Defined.
